(** * Virtual M8: the device state machine and the LED sysex encoder

    A shallow embedding of [tools/virtual_m8.py]: the [VirtualM8] class
    (boot pattern, note-on and note-off handlers, full resync) and
    [create_led_sysex].  Python integers are [Z]; the [led_state] dict is an
    insertion-ordered association list, because [get_all_leds] exposes the
    order of its items; methods run in a small monad that threads the object,
    may raise [KeyError] on a failed subscript, and collects the calls made
    to [log]. *)

From Stdlib Require Import ZArith List Ascii String DecimalString Lia Bool.
From Stdlib Require HexadecimalString.
Import ListNotations.
Local Open Scope string_scope.
Local Open Scope list_scope.
Local Open Scope Z_scope.

(** ** Launchpad Pro protocol constants *)

Definition LPP_SYSEX_HEADER : list Z := [0x00; 0x20; 0x29; 0x02; 0x10].

Definition LED_MODE_STATIC : Z := 0x0A.
Definition LED_MODE_FLASH : Z := 0x23.
Definition LED_MODE_PULSE : Z := 0x28.
Definition LED_MODE_RGB : Z := 0x0B.

(** A colour is the Python tuple [(r, g, b)]. *)
Definition Color : Type := (Z * Z * Z)%type.

(** The keys of the [M8_COLORS] table.  The program only ever subscripts the
    table with string literals, so the keys are an enumeration. *)
Inductive ColorName : Type :=
| off | white | red | green | blue | yellow | cyan | magenta
| orange | pink | dim_white | dim_red | dim_green | dim_blue.

Definition M8_COLORS (name : ColorName) : Color :=
  match name with
  | off => (0, 0, 0)
  | white => (63, 63, 63)
  | red => (63, 0, 0)
  | green => (0, 63, 0)
  | blue => (0, 0, 63)
  | yellow => (63, 63, 0)
  | cyan => (0, 63, 63)
  | magenta => (63, 0, 63)
  | orange => (63, 32, 0)
  | pink => (63, 20, 40)
  | dim_white => (20, 20, 20)
  | dim_red => (20, 0, 0)
  | dim_green => (0, 20, 0)
  | dim_blue => (0, 0, 20)
  end.

Definition M8_BUTTON_FUNCTIONS : list (Z * string) :=
  [ (91, "track_1"); (92, "track_2"); (93, "track_3"); (94, "track_4");
    (95, "track_5"); (96, "track_6"); (97, "track_7"); (98, "track_8");
    (89, "nav_up"); (79, "nav_right"); (69, "nav_down"); (59, "nav_left");
    (104, "option"); (105, "edit"); (106, "shift") ]%string.

(** ** Python dicts with integer keys

    Items are kept in insertion order.  Assigning to a key that is present
    replaces its value in place; assigning to a new key appends the item. *)

Definition dict : Type := list (Z * Color).

Fixpoint dict_set (k : Z) (v : Color) (d : dict) : dict :=
  match d with
  | [] => [(k, v)]
  | (k', v') :: d' =>
      if k' =? k then (k', v) :: d' else (k', v') :: dict_set k v d'
  end.

Fixpoint dict_get (k : Z) (d : dict) : option Color :=
  match d with
  | [] => None
  | (k', v') :: d' => if k' =? k then Some v' else dict_get k d'
  end.

Definition dict_keys (d : dict) : list Z := map fst d.

(** ** [range], [enumerate] and the [3d] format *)

Definition range (a b : Z) : list Z :=
  map (fun k => a + Z.of_nat k) (seq 0 (Z.to_nat (b - a))).

Definition enumerate {A : Type} (l : list A) : list (Z * A) :=
  combine (map Z.of_nat (seq 0 (List.length l))) l.

Definition str (z : Z) : string := NilZero.string_of_int (Z.to_int z).

Fixpoint spaces (n : nat) : string :=
  match n with
  | O => EmptyString
  | S n' => String " "%char (spaces n')
  end.

(** [format(z, '3d')]: decimal, right-aligned in a field of width 3. *)
Definition format_3d (z : Z) : string :=
  let digits := str z in
  (spaces (3 - String.length digits) ++ digits)%string.

(** ** The object and the monad its methods run in *)

Record VirtualM8 : Type := mkVirtualM8 {
  verbose : bool;
  led_state : dict;
  current_track : Z;
  current_view : string;
  shift_held : bool
}.

(** One call [log(msg, category)].  The printed line also carries the wall
    clock, which is not modelled. *)
Definition LogEntry : Type := (string * string)%type.

Inductive result (A : Type) : Type :=
| Ok (a : A)
| KeyError (k : Z).
Arguments Ok {A} a.
Arguments KeyError {A} k.

Definition M (A : Type) : Type :=
  VirtualM8 -> result A * VirtualM8 * list LogEntry.

Definition ret {A : Type} (a : A) : M A := fun self => (Ok a, self, []).

Definition bind {A B : Type} (m : M A) (f : A -> M B) : M B :=
  fun self =>
    match m self with
    | (Ok a, self1, out1) =>
        match f a self1 with
        | (r, self2, out2) => (r, self2, out1 ++ out2)
        end
    | (KeyError k, self1, out1) => (KeyError k, self1, out1)
    end.

Notation "x <- m ;; k" := (bind m (fun x => k))
  (at level 61, m at next level, right associativity).
Notation "m ;; k" := (bind m (fun _ => k))
  (at level 61, right associativity).

Definition log (msg category : string) : M unit :=
  fun self => (Ok tt, self, [(msg, category)]).

(** [self.led_state[note] = color] *)
Definition led_state_assign (note : Z) (color : Color) : M unit :=
  fun self =>
    (Ok tt,
     mkVirtualM8 (verbose self) (dict_set note color (led_state self))
                 (current_track self) (current_view self) (shift_held self),
     []).

(** [self.led_state[note]] *)
Definition led_state_subscript (note : Z) : M Color :=
  fun self =>
    match dict_get note (led_state self) with
    | Some c => (Ok c, self, [])
    | None => (KeyError note, self, [])
    end.

(** [self.current_track = track] *)
Definition current_track_assign (track : Z) : M unit :=
  fun self =>
    (Ok tt,
     mkVirtualM8 (verbose self) (led_state self) track
                 (current_view self) (shift_held self),
     []).

(** [self.current_track] *)
Definition current_track_read : M Z :=
  fun self => (Ok (current_track self), self, []).

(** [self.shift_held = b] *)
Definition shift_held_assign (b : bool) : M unit :=
  fun self =>
    (Ok tt,
     mkVirtualM8 (verbose self) (led_state self) (current_track self)
                 (current_view self) b,
     []).

(** A [for] loop whose body only acts on the object. *)
Fixpoint for_ {A : Type} (l : list A) (body : A -> M unit) : M unit :=
  match l with
  | [] => ret tt
  | x :: l' => body x ;; for_ l' body
  end.

(** A [for] loop that also updates one local variable. *)
Fixpoint for_acc {A B : Type} (l : list A) (acc : B) (body : B -> A -> M B)
  : M B :=
  match l with
  | [] => ret acc
  | x :: l' => acc' <- body acc x ;; for_acc l' acc' body
  end.

(** ** class VirtualM8 *)

Definition _init_leds : M unit :=
  for_ (range 1 9) (fun row =>
    for_ (range 1 9) (fun col =>
      let note := row * 10 + col in
      led_state_assign note (M8_COLORS dim_white))) ;;
  for_ (enumerate (range 91 99)) (fun '(i, note) =>
    if i =? 0 then led_state_assign note (M8_COLORS cyan)
    else led_state_assign note (M8_COLORS dim_white)) ;;
  led_state_assign 89 (M8_COLORS dim_blue) ;;
  led_state_assign 79 (M8_COLORS dim_blue) ;;
  led_state_assign 69 (M8_COLORS dim_blue) ;;
  led_state_assign 59 (M8_COLORS dim_blue).

Definition __init__ (verbose : bool)
  : result unit * VirtualM8 * list LogEntry :=
  _init_leds (mkVirtualM8 verbose [] 0 "song" false).

(** The object [VirtualM8(verbose)] evaluates to. *)
Definition boot (verbose : bool) : VirtualM8 := snd (fst (__init__ verbose)).

Definition _select_track (track : Z) : M unit :=
  current_track_assign track ;;
  log ("Track selected: " ++ str (track + 1))%string "state".

Definition _get_track_led_updates : M (list (Z * Color)) :=
  for_acc (range 0 8) [] (fun updates i =>
    let note := 91 + i in
    track <- current_track_read ;;
    let color :=
      if i =? track then M8_COLORS cyan else M8_COLORS dim_white in
    led_state_assign note color ;;
    ret (updates ++ [(note, color)])).

Definition _handle_nav (note : Z) (pressed : bool) : M (list (Z * Color)) :=
  (if pressed then led_state_assign note (M8_COLORS blue)
   else led_state_assign note (M8_COLORS dim_blue)) ;;
  c <- led_state_subscript note ;;
  ret [(note, c)].

Definition is_track_note (note : Z) : bool :=
  (91 <=? note) && (note <=? 98).

Definition is_nav_note (note : Z) : bool :=
  existsb (Z.eqb note) [89; 79; 69; 59].

Definition is_grid_note (note : Z) : bool :=
  (11 <=? note) && (note <=? 88)
  && negb (note mod 10 =? 0) && negb (note mod 10 =? 9).

Definition handle_note_on (note velocity : Z) : M (list (Z * Color)) :=
  log ("Button ON:  note=" ++ format_3d note
       ++ " vel=" ++ format_3d velocity)%string "rx" ;;
  if is_track_note note then
    let track := note - 91 in
    _select_track track ;;
    _get_track_led_updates
  else if is_nav_note note then
    _handle_nav note true
  else if is_grid_note note then
    led_state_assign note (M8_COLORS white) ;;
    ret [(note, M8_COLORS white)]
  else if note =? 106 then
    shift_held_assign true ;;
    ret [(note, M8_COLORS orange)]
  else
    ret [].

Definition handle_note_off (note velocity : Z) : M (list (Z * Color)) :=
  log ("Button OFF: note=" ++ format_3d note)%string "rx" ;;
  if is_grid_note note then
    led_state_assign note (M8_COLORS dim_white) ;;
    ret [(note, M8_COLORS dim_white)]
  else if is_nav_note note then
    _handle_nav note false
  else if note =? 106 then
    shift_held_assign false ;;
    ret [(note, M8_COLORS dim_white)]
  else
    ret [].

Definition get_all_leds : M (list (Z * Color)) :=
  fun self => (Ok (led_state self), self, []).

(** ** MIDI communication *)

(** A [mido.Message] of type sysex: the message type and its data bytes. *)
Record Message : Type := mkMessage {
  msg_type : string;
  data : list Z
}.

(** What a call made outside the methods of the class ends with: a value, or
    one of the two exceptions the program can meet. *)
Inductive outcome (A : Type) : Type :=
| Returned (a : A)
| RaisedKeyError (k : Z)
| RaisedValueError (byte : Z).
Arguments Returned {A} a.
Arguments RaisedKeyError {A} k.
Arguments RaisedValueError {A} byte.

(** [mido.Message('sysex', data=data)].  mido is a library, not part of
    this repository; its constructor checks the data bytes in order and
    raises [ValueError] at the first one outside 0..127. *)
Definition mido_sysex (bytes : list Z) : outcome Message :=
  match find (fun b => negb ((0 <=? b) && (b <=? 127))) bytes with
  | Some b => RaisedValueError b
  | None => Returned (mkMessage "sysex" bytes)
  end.

Definition create_led_sysex (updates : list (Z * Color))
  : outcome (option Message) :=
  match updates with
  | [] => Returned None
  | _ :: _ =>
      let data0 := LPP_SYSEX_HEADER ++ [LED_MODE_RGB] in
      let data1 :=
        fold_left (fun acc '(note, (r, g, b)) => acc ++ [note; r; g; b])
                  updates data0 in
      match mido_sysex data1 with
      | Returned m => Returned (Some m)
      | RaisedKeyError k => RaisedKeyError k
      | RaisedValueError b => RaisedValueError b
      end
  end.

(** ** Running a method *)

Definition state_after {A : Type} (m : M A) (self : VirtualM8) : VirtualM8 :=
  snd (fst (m self)).

Definition value_of {A : Type} (m : M A) (self : VirtualM8) : result A :=
  fst (fst (m self)).

Definition output_of {A : Type} (m : M A) (self : VirtualM8)
  : list LogEntry :=
  snd (m self).

(** ** Closed forms of the selector-row loop

    [_get_track_led_updates] walks [range(8)]; these are the update list it
    builds and the dict it leaves, as functions of [self.current_track]. *)

Definition selector_color (track j : Z) : Color :=
  if j =? track then M8_COLORS cyan else M8_COLORS dim_white.

Definition selector_row (track : Z) : list (Z * Color) :=
  map (fun j => (91 + j, selector_color track j)) (range 0 8).

Definition paint_selectors (track : Z) (d : dict) : dict :=
  fold_left (fun acc j => dict_set (91 + j) (selector_color track j) acc)
            (range 0 8) d.

(** ** Vocabulary of the properties *)

(** A grid cell: the notes [row * 10 + col] that [_init_leds] dims, that is
    the two-digit identifiers with both digits in 1..8. *)
Definition grid_cell (c : Z) : Prop :=
  exists row col : Z, 1 <= row <= 8 /\ 1 <= col <= 8 /\ c = row * 10 + col.

(** The notes [_init_leds] gives an item to, told by the handlers' guards. *)
Definition has_role (k : Z) : bool :=
  is_grid_note k || is_track_note k || is_nav_note k.

(** The keys of [led_state] after the constructor, in insertion order. *)
Definition boot_keys : list Z := dict_keys (led_state (boot false)).

(** The states the object can be in: the constructor's result, then any
    sequence of note-on and note-off calls with any arguments. *)
Inductive reachable : VirtualM8 -> Prop :=
| reachable_boot (verbose : bool) : reachable (boot verbose)
| reachable_note_on (self : VirtualM8) (note velocity : Z) :
    reachable self ->
    reachable (state_after (handle_note_on note velocity) self)
| reachable_note_off (self : VirtualM8) (note velocity : Z) :
    reachable self ->
    reachable (state_after (handle_note_off note velocity) self).

(** Reading a frame back: drop the vendor header and the mode byte, then
    take the bytes four at a time as [(id, (r, g, b))]. *)
Fixpoint quads (bytes : list Z) : list (Z * Color) :=
  match bytes with
  | note :: r :: g :: b :: rest => (note, (r, g, b)) :: quads rest
  | _ => []
  end.

Definition frame_quads (m : Message) : list (Z * Color) :=
  quads (skipn (List.length LPP_SYSEX_HEADER + 1) (data m)).

(** A colour whose three channels fit the 6-bit depth of the protocol. *)
Definition channels_in_range (u : Z * Color) : Prop :=
  let '(_, (r, g, b)) := u in
  0 <= r <= 63 /\ 0 <= g <= 63 /\ 0 <= b <= 63.

(** A value that fits a MIDI data byte. *)
Definition seven_bit (b : Z) : Prop := 0 <= b <= 127.

(** An update whose control id and three channels are MIDI data bytes. *)
Definition update_fits_bytes (u : Z * Color) : Prop :=
  let '(note, (r, g, b)) := u in
  seven_bit note /\ seven_bit r /\ seven_bit g /\ seven_bit b.

(** The data of the frame for an update list: the vendor header, the mode
    byte, then the quads in order. *)
Definition frame_bytes (updates : list (Z * Color)) : list Z :=
  LPP_SYSEX_HEADER ++ [LED_MODE_RGB]
  ++ flat_map (fun '(note, (r, g, b)) => [note; r; g; b]) updates.

(** ** The rest of the program: the main loop, port detection and [main]

    mido and the operator are the environment: a received message is a
    value of [MidiMessage]; what the program does to the outside (logging,
    printing, sending a frame, closing a port) is a list of [IOEvent]. *)

(** A message as the loop reads it: [msg.type] with the attributes the loop
    uses for that type.  Types the loop has no branch for keep their name
    only. *)
Inductive MidiMessage : Type :=
| note_on (note velocity : Z)
| note_off (note velocity : Z)
| control_change (control value : Z)
| sysex (bytes : list Z)
| other_type (type : string).

Inductive IOEvent : Type :=
| Logged (entry : LogEntry)
| Printed (line : string)
| Sent (m : Message)
| ClosedInput
| ClosedOutput.

Definition IO (A : Type) : Type :=
  VirtualM8 -> outcome A * VirtualM8 * list IOEvent.

Definition io_ret {A : Type} (a : A) : IO A :=
  fun m8 => (Returned a, m8, []).

Definition io_bind {A B : Type} (m : IO A) (f : A -> IO B) : IO B :=
  fun m8 =>
    match m m8 with
    | (Returned a, m8', out1) =>
        match f a m8' with
        | (r, m8'', out2) => (r, m8'', out1 ++ out2)
        end
    | (RaisedKeyError k, m8', out1) => (RaisedKeyError k, m8', out1)
    | (RaisedValueError b, m8', out1) => (RaisedValueError b, m8', out1)
    end.

Declare Scope io_scope.
Delimit Scope io_scope with io.
Notation "x <- m ;; k" := (io_bind m (fun x => k))
  (at level 61, m at next level, right associativity) : io_scope.
Notation "m ;; k" := (io_bind m (fun _ => k))
  (at level 61, right associativity) : io_scope.

(** A method call on the loop's [m8] object. *)
Definition call {A : Type} (m : M A) : IO A :=
  fun m8 =>
    match m m8 with
    | (Ok a, m8', out) => (Returned a, m8', map Logged out)
    | (KeyError k, m8', out) => (RaisedKeyError k, m8', map Logged out)
    end.

(** A call that may raise and touches neither the object nor the outside. *)
Definition io_lift {A : Type} (o : outcome A) : IO A :=
  fun m8 => (o, m8, []).

(** [log(msg, category)] called from module level code. *)
Definition io_log (msg category : string) : IO unit :=
  fun m8 => (Returned tt, m8, [Logged (msg, category)]).

(** [outport.send(sysex)] *)
Definition send (m : Message) : IO unit :=
  fun m8 => (Returned tt, m8, [Sent m]).

Definition close_ports : IO unit :=
  fun m8 => (Returned tt, m8, [ClosedInput; ClosedOutput]).

Fixpoint io_for {A : Type} (l : list A) (body : A -> IO unit) : IO unit :=
  match l with
  | [] => io_ret tt
  | x :: l' => io_bind (body x) (fun _ => io_for l' body)
  end.

(** [try: body finally: cleanup]; an exception raised by the body passes
    through after the cleanup has run. *)
Definition try_finally {A : Type} (body : IO A) (cleanup : IO unit) : IO A :=
  fun m8 =>
    match body m8 with
    | (r, m8', out1) =>
        match cleanup m8' with
        | (Returned _, m8'', out2) => (r, m8'', out1 ++ out2)
        | (RaisedKeyError k, m8'', out2) =>
            (RaisedKeyError k, m8'', out1 ++ out2)
        | (RaisedValueError b, m8'', out2) =>
            (RaisedValueError b, m8'', out1 ++ out2)
        end
    end.

Definition newline : string := String (ascii_of_nat 10) EmptyString.

Definition upper (c : ascii) : ascii :=
  let n := nat_of_ascii c in
  if (97 <=? n)%nat && (n <=? 122)%nat then ascii_of_nat (n - 32) else c.

Fixpoint upper_all (s : string) : string :=
  match s with
  | EmptyString => EmptyString
  | String c rest => String (upper c) (upper_all rest)
  end.

Fixpoint zeros (n : nat) : string :=
  match n with
  | O => EmptyString
  | S n' => String "0"%char (zeros n')
  end.

(** [format(z, '02X')]: upper-case hexadecimal, zero-padded after the sign
    to a field of width 2. *)
Definition format_02X (z : Z) : string :=
  let sign := if z <? 0 then "-" else "" in
  let digits :=
    upper_all
      (HexadecimalString.NilZero.string_of_int (Z.to_hex_int (Z.abs z))) in
  (sign ++ zeros (2 - String.length sign - String.length digits)
   ++ digits)%string.

Definition len {A : Type} (l : list A) : Z := Z.of_nat (List.length l).

(** The body of [for msg in inport.iter_pending()] in [run_virtual_m8]. *)
Definition process_message (verbose : bool) (msg : MidiMessage) : IO unit :=
  (updates <-
     match msg with
     | note_on note velocity =>
         if velocity >? 0 then call (handle_note_on note velocity)
         else if velocity =? 0 then call (handle_note_off note 0)
         else io_ret []
     | note_off note _ => call (handle_note_off note 0)
     | control_change control value =>
         io_log ("CC: cc=" ++ str control ++ " val=" ++ str value)%string
                "rx" ;;
         io_ret []
     | sysex bytes =>
         io_log ("Sysex received: " ++ str (len bytes) ++ " bytes")%string
                "rx" ;;
         (if verbose then
            io_log ("  Data: "
                    ++ String.concat " " (map format_02X (firstn 20 bytes))
                    ++ "...")%string "rx"
          else io_ret tt) ;;
         io_ret []
     | other_type _ => io_ret []
     end ;;
   match updates with
   | [] => io_ret tt
   | _ :: _ =>
       sysex <- io_lift (create_led_sysex updates) ;;
       match sysex with
       | Some frame =>
           send frame ;;
           io_log ("LED update: " ++ str (len updates) ++ " LEDs")%string
                  "tx"
       | None => io_ret tt
       end
   end)%io.

(** The initial resync of [run_virtual_m8]. *)
Definition send_initial_leds : IO unit :=
  (initial_leds <- call get_all_leds ;;
   sysex <- io_lift (create_led_sysex initial_leds) ;;
   match sysex with
   | Some frame =>
       send frame ;;
       io_log ("Sent " ++ str (len initial_leds) ++ " LED updates")%string
              "tx"
   | None => io_ret tt
   end)%io.

(** A port name as [main] holds it: a string or [None]. *)
Definition format_port (port : option string) : string :=
  match port with
  | Some name => name
  | None => "None"
  end.

(** [run_virtual_m8]: [open_error] is the text of the exception the two
    [mido.open_*] calls end with, if they fail; [pending] are the messages
    the loop reads before the operator interrupts it. *)
Definition run_virtual_m8 (input_port output_port : option string)
           (verbose : bool) (open_error : option string)
           (pending : list MidiMessage)
  : outcome unit * VirtualM8 * list IOEvent :=
  (io_log ("Opening input:  " ++ format_port input_port)%string "info" ;;
   io_log ("Opening output: " ++ format_port output_port)%string "info" ;;
   match open_error with
   | Some e =>
       io_log ("Failed to open MIDI ports: " ++ e)%string "error"
   | None =>
       io_log "Virtual M8 running! Press Ctrl+C to exit." "info" ;;
       io_log "Sending initial LED state..." "info" ;;
       send_initial_leds ;;
       try_finally
         (io_for pending (process_message verbose) ;;
          io_log (newline ++ "Shutting down...")%string "info")
         close_ports
   end)%io (boot verbose).

(** [needle in hay] on strings. *)
Fixpoint contains (needle hay : string) : bool :=
  String.prefix needle hay
  || match hay with
     | EmptyString => false
     | String _ rest => contains needle rest
     end.

Definition is_move_name (name : string) : bool :=
  contains "Move" name || contains "Ableton" name.

(** [find_move_ports], given what [mido.get_input_names()] and
    [mido.get_output_names()] return. *)
Definition find_move_ports (input_names output_names : list string)
  : option string * option string :=
  (find is_move_name input_names, find is_move_name output_names).

Definition list_ports (input_names output_names : list string)
  : list IOEvent :=
  [Printed (newline ++ "Available MIDI Input Ports:")%string]
  ++ map (fun '(i, name) => Printed ("  " ++ str i ++ ": " ++ name)%string)
         (enumerate input_names)
  ++ [Printed (newline ++ "Available MIDI Output Ports:")%string]
  ++ map (fun '(i, name) => Printed ("  " ++ str i ++ ": " ++ name)%string)
         (enumerate output_names).

(** The parsed command line. *)
Record Args : Type := mkArgs {
  args_list : bool;
  args_input : option string;
  args_output : option string;
  args_verbose : bool
}.

(** Truth value of a [str] or [None]: only a non-empty string is true. *)
Definition truthy (port : option string) : bool :=
  match port with
  | Some (String _ _) => true
  | _ => false
  end.

(** [a or b] *)
Definition or_else (a b : option string) : option string :=
  if truthy a then a else b.

Definition main (args : Args) (input_names output_names : list string)
           (open_error : option string) (pending : list MidiMessage)
  : outcome unit * list IOEvent :=
  if args_list args then (Returned tt, list_ports input_names output_names)
  else
    let input_port := args_input args in
    let output_port := args_output args in
    let '(input_port, output_port) :=
      if negb (truthy input_port) || negb (truthy output_port) then
        let '(auto_in, auto_out) :=
          find_move_ports input_names output_names in
        (or_else input_port auto_in, or_else output_port auto_out)
      else (input_port, output_port) in
    if negb (truthy input_port) || negb (truthy output_port) then
      (Returned tt,
       [Logged ("Could not find Move MIDI ports. Use --list to see available ports.",
                "error");
        Logged ("Then specify with: --input 'port name' --output 'port name'",
                "error")]
       ++ list_ports input_names output_names)
    else
      match run_virtual_m8 input_port output_port (args_verbose args)
                           open_error pending with
      | (r, _, out) => (r, out)
      end.

(** The frames among the events, in the order they were sent. *)
Definition sent_frames (out : list IOEvent) : list Message :=
  flat_map (fun e => match e with Sent m => [m] | _ => [] end) out.

(** * Properties *)

(** ** Dict lemmas *)

Lemma dict_get_set (k k' : Z) (v : Color) (d : dict) :
  dict_get k (dict_set k' v d) = if k' =? k then Some v else dict_get k d.
Proof.
  induction d as [|[k0 v0] d IH]; simpl.
  - reflexivity.
  - destruct (k0 =? k') eqn:E0; simpl.
    + apply Z.eqb_eq in E0; subst k0.
      destruct (k' =? k); reflexivity.
    + destruct (k0 =? k) eqn:E1.
      * apply Z.eqb_eq in E1; subst k0.
        rewrite Z.eqb_sym, E0. reflexivity.
      * exact IH.
Qed.

Lemma dict_get_set_same (k : Z) (v : Color) (d : dict) :
  dict_get k (dict_set k v d) = Some v.
Proof. rewrite dict_get_set, Z.eqb_refl. reflexivity. Qed.

Lemma dict_get_set_other (k k' : Z) (v : Color) (d : dict) :
  k' <> k -> dict_get k (dict_set k' v d) = dict_get k d.
Proof.
  intros Hne. rewrite dict_get_set.
  destruct (k' =? k) eqn:E; [apply Z.eqb_eq in E; contradiction | reflexivity].
Qed.

(** Writing the value a key already holds changes nothing, not even the
    order of the items. *)
Lemma dict_set_get_id (k : Z) (v : Color) (d : dict) :
  dict_get k d = Some v -> dict_set k v d = d.
Proof.
  induction d as [|[k0 v0] d IH]; simpl.
  - discriminate.
  - destruct (k0 =? k).
    + intros [= ->]. reflexivity.
    + intros H. rewrite (IH H). reflexivity.
Qed.

Lemma dict_set_set_same (k : Z) (v w : Color) (d : dict) :
  dict_set k v (dict_set k w d) = dict_set k v d.
Proof.
  induction d as [|[k0 v0] d IH]; simpl.
  - rewrite Z.eqb_refl. reflexivity.
  - destruct (k0 =? k) eqn:E; simpl; rewrite E.
    + reflexivity.
    + rewrite IH. reflexivity.
Qed.

Lemma dict_get_keys (k : Z) (d : dict) :
  In k (dict_keys d) <-> dict_get k d <> None.
Proof.
  induction d as [|[k0 v0] d IH]; simpl.
  - split; [intros [] | intros H; apply H; reflexivity].
  - destruct (k0 =? k) eqn:E.
    + apply Z.eqb_eq in E. split; [discriminate | intros _; left; exact E].
    + apply Z.eqb_neq in E. rewrite <- IH.
      split; [intros [H | H]; [contradiction | exact H] | intros H; right; exact H].
Qed.

(** Assigning to a key that is present keeps the keys and their order. *)
Lemma dict_keys_set_present (k : Z) (v : Color) (d : dict) :
  In k (dict_keys d) -> dict_keys (dict_set k v d) = dict_keys d.
Proof.
  induction d as [|[k0 v0] d IH]; simpl.
  - intros [].
  - destruct (k0 =? k) eqn:E; simpl.
    + reflexivity.
    + apply Z.eqb_neq in E. intros [H | H]; [contradiction |].
      f_equal. exact (IH H).
Qed.

(** ** Bounded checks by enumeration *)

Lemma range_In (a b k : Z) : a <= k < b -> In k (range a b).
Proof.
  intros H. unfold range. apply in_map_iff.
  exists (Z.to_nat (k - a)). split; [lia |].
  apply in_seq. lia.
Qed.

Lemma forallb_range (P : Z -> bool) (a b : Z) :
  forallb P (range a b) = true -> forall k, a <= k < b -> P k = true.
Proof.
  intros H k Hk. rewrite forallb_forall in H. apply H, range_In, Hk.
Qed.

Lemma log_then {A : Type} (msg category : string) (k : M A)
      (self : VirtualM8) :
  (log msg category ;; k) self =
  (value_of k self, state_after k self, (msg, category) :: output_of k self).
Proof.
  unfold bind, log, value_of, state_after, output_of.
  destruct (k self) as [[r s'] out]. reflexivity.
Qed.

(** ** What each branch of the handlers does *)

Lemma _get_track_led_updates_run (self : VirtualM8) :
  _get_track_led_updates self =
  (Ok (selector_row (current_track self)),
   mkVirtualM8 (verbose self)
               (paint_selectors (current_track self) (led_state self))
               (current_track self) (current_view self) (shift_held self),
   []).
Proof. reflexivity. Qed.

Ltac enter_handler :=
  unfold handle_note_on, handle_note_off, value_of at 1, state_after at 1;
  rewrite log_then; cbn [fst snd].

Lemma handle_note_on_track (note velocity : Z) (self : VirtualM8) :
  is_track_note note = true ->
  value_of (handle_note_on note velocity) self = Ok (selector_row (note - 91))
  /\ state_after (handle_note_on note velocity) self =
     mkVirtualM8 (verbose self)
                 (paint_selectors (note - 91) (led_state self))
                 (note - 91) (current_view self) (shift_held self).
Proof.
  intros Ht. enter_handler. rewrite Ht. split; reflexivity.
Qed.

Lemma _handle_nav_run (note : Z) (pressed : bool) (self : VirtualM8) :
  let hue := M8_COLORS (if pressed then blue else dim_blue) in
  _handle_nav note pressed self =
  (Ok [(note, hue)],
   mkVirtualM8 (verbose self) (dict_set note hue (led_state self))
               (current_track self) (current_view self) (shift_held self),
   []).
Proof.
  unfold _handle_nav, bind, led_state_subscript, ret.
  destruct pressed; unfold led_state_assign; cbn [led_state];
    rewrite dict_get_set_same; reflexivity.
Qed.

Lemma handle_note_on_nav (note velocity : Z) (self : VirtualM8) :
  is_track_note note = false -> is_nav_note note = true ->
  value_of (handle_note_on note velocity) self = Ok [(note, M8_COLORS blue)]
  /\ state_after (handle_note_on note velocity) self =
     mkVirtualM8 (verbose self)
                 (dict_set note (M8_COLORS blue) (led_state self))
                 (current_track self) (current_view self) (shift_held self).
Proof.
  intros Ht Hn. enter_handler. rewrite Ht, Hn.
  unfold value_of, state_after. rewrite _handle_nav_run. split; reflexivity.
Qed.

Lemma handle_note_on_grid (note velocity : Z) (self : VirtualM8) :
  is_track_note note = false -> is_nav_note note = false ->
  is_grid_note note = true ->
  value_of (handle_note_on note velocity) self = Ok [(note, M8_COLORS white)]
  /\ state_after (handle_note_on note velocity) self =
     mkVirtualM8 (verbose self)
                 (dict_set note (M8_COLORS white) (led_state self))
                 (current_track self) (current_view self) (shift_held self).
Proof.
  intros Ht Hn Hg. enter_handler. rewrite Ht, Hn, Hg. split; reflexivity.
Qed.

Lemma handle_note_on_shift (note velocity : Z) (self : VirtualM8) :
  is_track_note note = false -> is_nav_note note = false ->
  is_grid_note note = false -> (note =? 106) = true ->
  value_of (handle_note_on note velocity) self = Ok [(note, M8_COLORS orange)]
  /\ state_after (handle_note_on note velocity) self =
     mkVirtualM8 (verbose self) (led_state self) (current_track self)
                 (current_view self) true.
Proof.
  intros Ht Hn Hg Hs. enter_handler. rewrite Ht, Hn, Hg, Hs.
  split; reflexivity.
Qed.

Lemma handle_note_on_other (note velocity : Z) (self : VirtualM8) :
  is_track_note note = false -> is_nav_note note = false ->
  is_grid_note note = false -> (note =? 106) = false ->
  value_of (handle_note_on note velocity) self = Ok []
  /\ state_after (handle_note_on note velocity) self = self.
Proof.
  intros Ht Hn Hg Hs. enter_handler. rewrite Ht, Hn, Hg, Hs.
  split; reflexivity.
Qed.

Lemma handle_note_off_grid (note velocity : Z) (self : VirtualM8) :
  is_grid_note note = true ->
  value_of (handle_note_off note velocity) self
  = Ok [(note, M8_COLORS dim_white)]
  /\ state_after (handle_note_off note velocity) self =
     mkVirtualM8 (verbose self)
                 (dict_set note (M8_COLORS dim_white) (led_state self))
                 (current_track self) (current_view self) (shift_held self).
Proof.
  intros Hg. enter_handler. rewrite Hg. split; reflexivity.
Qed.

Lemma handle_note_off_nav (note velocity : Z) (self : VirtualM8) :
  is_grid_note note = false -> is_nav_note note = true ->
  value_of (handle_note_off note velocity) self
  = Ok [(note, M8_COLORS dim_blue)]
  /\ state_after (handle_note_off note velocity) self =
     mkVirtualM8 (verbose self)
                 (dict_set note (M8_COLORS dim_blue) (led_state self))
                 (current_track self) (current_view self) (shift_held self).
Proof.
  intros Hg Hn. enter_handler. rewrite Hg, Hn.
  unfold value_of, state_after. rewrite _handle_nav_run. split; reflexivity.
Qed.

Lemma handle_note_off_shift (note velocity : Z) (self : VirtualM8) :
  is_grid_note note = false -> is_nav_note note = false ->
  (note =? 106) = true ->
  value_of (handle_note_off note velocity) self
  = Ok [(note, M8_COLORS dim_white)]
  /\ state_after (handle_note_off note velocity) self =
     mkVirtualM8 (verbose self) (led_state self) (current_track self)
                 (current_view self) false.
Proof.
  intros Hg Hn Hs. enter_handler. rewrite Hg, Hn, Hs. split; reflexivity.
Qed.

Lemma handle_note_off_other (note velocity : Z) (self : VirtualM8) :
  is_grid_note note = false -> is_nav_note note = false ->
  (note =? 106) = false ->
  value_of (handle_note_off note velocity) self = Ok []
  /\ state_after (handle_note_off note velocity) self = self.
Proof.
  intros Hg Hn Hs. enter_handler. rewrite Hg, Hn, Hs. split; reflexivity.
Qed.

(** ** The guards against the layout *)

Lemma is_track_note_spec (note : Z) :
  is_track_note note = true <-> 91 <= note <= 98.
Proof. unfold is_track_note. rewrite andb_true_iff, !Z.leb_le. tauto. Qed.

Lemma is_nav_note_spec (note : Z) :
  is_nav_note note = true <->
  note = 89 \/ note = 79 \/ note = 69 \/ note = 59.
Proof.
  unfold is_nav_note. cbn [existsb].
  rewrite !orb_true_iff, !Z.eqb_eq. intuition discriminate.
Qed.

Lemma is_grid_note_spec (note : Z) :
  is_grid_note note = true <-> grid_cell note.
Proof.
  unfold is_grid_note, grid_cell.
  rewrite !andb_true_iff, !negb_true_iff, !Z.leb_le, !Z.eqb_neq.
  pose proof (Z.div_mod note 10 ltac:(lia)) as Hdm.
  pose proof (Z.mod_pos_bound note 10 ltac:(lia)) as Hb.
  split.
  - intros [[[Hlo Hhi] H0] H9]. exists (note / 10), (note mod 10). lia.
  - intros (row & col & Hr & Hc & ->).
    assert (Hm : (row * 10 + col) mod 10 = col).
    { rewrite Z.add_comm, Z.mod_add by lia. apply Z.mod_small. lia. }
    rewrite Hm. lia.
Qed.

Lemma is_nav_not_track (note : Z) :
  is_nav_note note = true -> is_track_note note = false.
Proof.
  rewrite is_nav_note_spec. intros H.
  destruct (is_track_note note) eqn:E; [|reflexivity].
  apply is_track_note_spec in E. lia.
Qed.

Lemma is_grid_not_track (note : Z) :
  is_grid_note note = true -> is_track_note note = false.
Proof.
  unfold is_grid_note. rewrite !andb_true_iff, !Z.leb_le.
  intros [[[Hlo Hhi] _] _].
  destruct (is_track_note note) eqn:E; [|reflexivity].
  apply is_track_note_spec in E. lia.
Qed.

Lemma is_grid_not_nav (note : Z) :
  is_grid_note note = true -> is_nav_note note = false.
Proof.
  intros Hg. destruct (is_nav_note note) eqn:E; [|reflexivity].
  apply is_nav_note_spec in E.
  destruct E as [-> | [-> | [-> | ->]]]; discriminate Hg.
Qed.

(** ** The selector row *)

Lemma paint_selectors_unfold (track : Z) (d : dict) :
  paint_selectors track d =
  dict_set 98 (selector_color track 7)
   (dict_set 97 (selector_color track 6)
    (dict_set 96 (selector_color track 5)
     (dict_set 95 (selector_color track 4)
      (dict_set 94 (selector_color track 3)
       (dict_set 93 (selector_color track 2)
        (dict_set 92 (selector_color track 1)
         (dict_set 91 (selector_color track 0) d))))))).
Proof. reflexivity. Qed.

Lemma paint_selectors_get_selector (track j : Z) (d : dict) :
  0 <= j <= 7 ->
  dict_get (91 + j) (paint_selectors track d) = Some (selector_color track j).
Proof.
  intros Hj. rewrite paint_selectors_unfold.
  assert (Hc : j = 0 \/ j = 1 \/ j = 2 \/ j = 3 \/ j = 4 \/ j = 5
               \/ j = 6 \/ j = 7) by lia.
  destruct Hc as [-> | [-> | [-> | [-> | [-> | [-> | [-> | ->]]]]]]];
    rewrite !dict_get_set; reflexivity.
Qed.

Lemma paint_selectors_get_other (track k : Z) (d : dict) :
  ~ 91 <= k <= 98 ->
  dict_get k (paint_selectors track d) = dict_get k d.
Proof.
  intros Hk. rewrite paint_selectors_unfold.
  rewrite !dict_get_set_other by lia. reflexivity.
Qed.

Lemma In_range (a b k : Z) : In k (range a b) -> a <= k < b.
Proof.
  unfold range. rewrite in_map_iff. intros (n & <- & Hn).
  apply in_seq in Hn. lia.
Qed.

Lemma fold_dict_set_keys (key : Z -> Z) (hue : Z -> Color) (l : list Z)
      (d : dict) :
  (forall j, In j l -> In (key j) (dict_keys d)) ->
  dict_keys (fold_left (fun acc j => dict_set (key j) (hue j) acc) l d)
  = dict_keys d.
Proof.
  revert d. induction l as [|j l IH]; intros d Hin; cbn [fold_left].
  - reflexivity.
  - assert (Hj : dict_keys (dict_set (key j) (hue j) d) = dict_keys d).
    { apply dict_keys_set_present, Hin. left. reflexivity. }
    rewrite IH; [exact Hj |].
    intros j' Hj'. rewrite Hj. apply Hin. right. exact Hj'.
Qed.

Lemma paint_selectors_keys (track : Z) (d : dict) :
  (forall k, 91 <= k <= 98 -> In k (dict_keys d)) ->
  dict_keys (paint_selectors track d) = dict_keys d.
Proof.
  intros Hin. unfold paint_selectors.
  apply (fold_dict_set_keys (fun j => 91 + j)).
  intros j Hj. apply In_range in Hj. apply Hin. lia.
Qed.

Lemma paint_selectors_idem (track : Z) (d : dict) :
  paint_selectors track (paint_selectors track d) = paint_selectors track d.
Proof.
  set (d1 := paint_selectors track d).
  assert (Hget : forall j, 0 <= j <= 7 ->
                 dict_get (91 + j) d1 = Some (selector_color track j)).
  { intros j Hj. apply paint_selectors_get_selector, Hj. }
  rewrite (paint_selectors_unfold track d1).
  rewrite (dict_set_get_id 91) by (apply (Hget 0); lia).
  rewrite (dict_set_get_id 92) by (apply (Hget 1); lia).
  rewrite (dict_set_get_id 93) by (apply (Hget 2); lia).
  rewrite (dict_set_get_id 94) by (apply (Hget 3); lia).
  rewrite (dict_set_get_id 95) by (apply (Hget 4); lia).
  rewrite (dict_set_get_id 96) by (apply (Hget 5); lia).
  rewrite (dict_set_get_id 97) by (apply (Hget 6); lia).
  rewrite (dict_set_get_id 98) by (apply (Hget 7); lia).
  reflexivity.
Qed.

(** ** Track selection *)

(** C1.  For every track index [i] in 0..7, pressing selector [91 + i]
    returns, without raising, the 8 updates for notes 91..98 in that order,
    selector [i] cyan and the seven others dim white; the selected track
    becomes [i]; and [led_state] holds each of the 8 returned colours (the
    items of all other keys are untouched). *)
Theorem press_selector_repaints_row (i velocity : Z) (self : VirtualM8) :
  0 <= i <= 7 ->
  let hue := fun j : Z =>
    if j =? i then M8_COLORS cyan else M8_COLORS dim_white in
  let updates :=
    [ (91, hue 0); (92, hue 1); (93, hue 2); (94, hue 3);
      (95, hue 4); (96, hue 5); (97, hue 6); (98, hue 7) ] in
  let self' := state_after (handle_note_on (91 + i) velocity) self in
  value_of (handle_note_on (91 + i) velocity) self = Ok updates
  /\ List.length updates = 8%nat
  /\ current_track self' = i
  /\ (forall note color,
        In (note, color) updates ->
        dict_get note (led_state self') = Some color)
  /\ (forall k, ~ 91 <= k <= 98 ->
        dict_get k (led_state self') = dict_get k (led_state self))
  /\ shift_held self' = shift_held self.
Proof.
  intros Hi hue updates self'.
  assert (Ht : is_track_note (91 + i) = true)
    by (apply is_track_note_spec; lia).
  destruct (handle_note_on_track (91 + i) velocity self Ht) as [Hv Hs].
  replace (91 + i - 91) with i in Hv, Hs by lia.
  assert (Hrow : selector_row i = updates) by reflexivity.
  subst self'. rewrite Hv, Hs, Hrow. cbn [current_track led_state shift_held].
  repeat split.
  - intros note color Hin.
    assert (Hsel : forall j, 0 <= j <= 7 ->
              dict_get (91 + j) (paint_selectors i (led_state self))
              = Some (hue j))
      by (intros j Hj; apply paint_selectors_get_selector, Hj).
    cbn [In updates] in Hin.
    destruct Hin as [H | [H | [H | [H | [H | [H | [H | [H | []]]]]]]]];
      injection H as <- <-.
    + apply (Hsel 0); lia.
    + apply (Hsel 1); lia.
    + apply (Hsel 2); lia.
    + apply (Hsel 3); lia.
    + apply (Hsel 4); lia.
    + apply (Hsel 5); lia.
    + apply (Hsel 6); lia.
    + apply (Hsel 7); lia.
  - intros k Hk. apply paint_selectors_get_other, Hk.
Qed.

Lemma press_selector_repaints_row_witness :
  0 <= 2 <= 7
  /\ value_of (handle_note_on (91 + 2) 100) (boot false)
     = Ok [ (91, M8_COLORS dim_white); (92, M8_COLORS dim_white);
            (93, M8_COLORS cyan); (94, M8_COLORS dim_white);
            (95, M8_COLORS dim_white); (96, M8_COLORS dim_white);
            (97, M8_COLORS dim_white); (98, M8_COLORS dim_white) ]
  /\ current_track (state_after (handle_note_on (91 + 2) 100) (boot false))
     = 2.
Proof.
  split; [lia |].
  destruct (press_selector_repaints_row 2 100 (boot false) ltac:(lia))
    as (Hv & _ & Ht & _).
  split; [exact Hv | exact Ht].
Defined.

(** ** The LED sysex encoder *)

Lemma extend_all (updates : list (Z * Color)) (acc : list Z) :
  fold_left (fun acc '(note, (r, g, b)) => acc ++ [note; r; g; b])
            updates acc
  = acc ++ flat_map (fun '(note, (r, g, b)) => [note; r; g; b]) updates.
Proof.
  revert acc. induction updates as [|[note [[r g] b]] updates IH]; intros acc.
  - cbn. rewrite app_nil_r. reflexivity.
  - cbn [fold_left flat_map]. rewrite IH, <- app_assoc. reflexivity.
Qed.

Lemma flat_map_quads_length (updates : list (Z * Color)) :
  List.length (flat_map (fun '(note, (r, g, b)) => [note; r; g; b]) updates)
  = (4 * List.length updates)%nat.
Proof.
  induction updates as [|[note [[r g] b]] updates IH].
  - reflexivity.
  - cbn [flat_map List.length app]. rewrite IH. lia.
Qed.

Lemma quads_flat_map (updates : list (Z * Color)) :
  quads (flat_map (fun '(note, (r, g, b)) => [note; r; g; b]) updates)
  = updates.
Proof.
  induction updates as [|[note [[r g] b]] updates IH].
  - reflexivity.
  - cbn [flat_map app quads]. rewrite IH. reflexivity.
Qed.

Lemma not_data_byte_spec (b : Z) :
  negb ((0 <=? b) && (b <=? 127)) = false <-> seven_bit b.
Proof.
  unfold seven_bit.
  rewrite negb_false_iff, andb_true_iff, !Z.leb_le. tauto.
Qed.

(** The constructor returns the message when every byte is a data byte. *)
Lemma mido_sysex_fits (bytes : list Z) :
  Forall seven_bit bytes ->
  mido_sysex bytes = Returned (mkMessage "sysex" bytes).
Proof.
  intros Hfit. unfold mido_sysex.
  destruct (find _ bytes) as [b |] eqn:E; [| reflexivity].
  apply find_some in E. destruct E as [Hin Hb].
  rewrite Forall_forall in Hfit. apply Hfit, not_data_byte_spec in Hin.
  congruence.
Qed.

Lemma mido_sysex_returned (bytes : list Z) (m : Message) :
  mido_sysex bytes = Returned m ->
  m = mkMessage "sysex" bytes /\ Forall seven_bit bytes.
Proof.
  unfold mido_sysex.
  destruct (find _ bytes) as [b |] eqn:E; [discriminate |].
  intros Hm. split; [congruence |].
  apply Forall_forall. intros b Hin.
  apply not_data_byte_spec. exact (find_none _ _ E b Hin).
Qed.

(** It raises at a byte of the data that is no data byte. *)
Lemma mido_sysex_raised (bytes : list Z) (b : Z) :
  mido_sysex bytes = RaisedValueError b -> In b bytes /\ ~ seven_bit b.
Proof.
  unfold mido_sysex.
  destruct (find _ bytes) as [b' |] eqn:E; [| discriminate].
  intros Hb. assert (b' = b) by congruence. subst b'.
  apply find_some in E. destruct E as [Hin Hb'].
  split; [exact Hin |]. intros Hfit.
  apply not_data_byte_spec in Hfit. congruence.
Qed.

Lemma create_led_sysex_bytes (u : Z * Color) (updates : list (Z * Color)) :
  create_led_sysex (u :: updates) =
  match mido_sysex (frame_bytes (u :: updates)) with
  | Returned m => Returned (Some m)
  | RaisedKeyError k => RaisedKeyError k
  | RaisedValueError b => RaisedValueError b
  end.
Proof.
  unfold create_led_sysex, frame_bytes.
  rewrite extend_all, <- app_assoc. reflexivity.
Qed.

Lemma create_led_sysex_returned (updates : list (Z * Color)) (m : Message) :
  create_led_sysex updates = Returned (Some m) ->
  m = mkMessage "sysex" (frame_bytes updates)
  /\ Forall seven_bit (frame_bytes updates).
Proof.
  destruct updates as [|u updates]; [discriminate |].
  rewrite create_led_sysex_bytes.
  destruct (mido_sysex (frame_bytes (u :: updates))) as [m' | k | b] eqn:E;
    try discriminate.
  intros Hm. assert (m' = m) by congruence. subst m'.
  apply mido_sysex_returned, E.
Qed.

Lemma frame_bytes_fit (updates : list (Z * Color)) :
  Forall update_fits_bytes updates -> Forall seven_bit (frame_bytes updates).
Proof.
  intros Hfit. unfold frame_bytes.
  apply Forall_app. split.
  { unfold LPP_SYSEX_HEADER.
    repeat (apply Forall_cons; [unfold seven_bit; lia |]).
    apply Forall_nil. }
  apply Forall_app. split.
  { unfold LED_MODE_RGB.
    repeat (apply Forall_cons; [unfold seven_bit; lia |]).
    apply Forall_nil. }
  apply Forall_flat_map. revert Hfit. apply Forall_impl.
  intros [n [[r g] b]] (Hn & Hr & Hg & Hb).
  repeat (apply Forall_cons; [assumption |]). apply Forall_nil.
Qed.

Lemma create_led_sysex_fits (u : Z * Color) (updates : list (Z * Color)) :
  Forall update_fits_bytes (u :: updates) ->
  create_led_sysex (u :: updates)
  = Returned (Some (mkMessage "sysex" (frame_bytes (u :: updates)))).
Proof.
  intros Hfit. rewrite create_led_sysex_bytes.
  rewrite (mido_sysex_fits _ (frame_bytes_fit _ Hfit)). reflexivity.
Qed.

Lemma frame_quads_frame_bytes (updates : list (Z * Color)) :
  frame_quads (mkMessage "sysex" (frame_bytes updates)) = updates.
Proof. exact (quads_flat_map updates). Qed.

(** Reading a frame back gives the update list it was built from. *)
Lemma frame_quads_create_led_sysex (updates : list (Z * Color))
      (m : Message) :
  create_led_sysex updates = Returned (Some m) -> frame_quads m = updates.
Proof.
  intros Hm. apply create_led_sysex_returned in Hm. destruct Hm as [-> _].
  apply frame_quads_frame_bytes.
Qed.




(** C3, as amended.  A frame the encoder returns holds every update as it
    was given, channel values included: nothing is clamped.  So the channel
    bytes of the frame lie in 0..63 exactly when those of the update list
    do; and every byte of the frame is a MIDI data byte, since the message
    constructor raises on any other. *)
Theorem create_led_sysex_keeps_channels (updates : list (Z * Color))
        (m : Message) :
  create_led_sysex updates = Returned (Some m) ->
  frame_quads m = updates
  /\ (Forall channels_in_range (frame_quads m)
      <-> Forall channels_in_range updates)
  /\ Forall seven_bit (data m).
Proof.
  intros Hm.
  pose proof (frame_quads_create_led_sysex _ _ Hm) as Hq.
  apply create_led_sysex_returned in Hm. destruct Hm as [-> Hfit].
  split; [exact Hq |]. split; [rewrite Hq; tauto | exact Hfit].
Qed.

Lemma create_led_sysex_keeps_channels_witness :
  let updates := [(89, M8_COLORS blue); (11, (100, 64, 127))] in
  let m := mkMessage "sysex" [0; 32; 41; 2; 16; 11; 89; 0; 0; 63;
                              11; 100; 64; 127] in
  create_led_sysex updates = Returned (Some m)
  /\ frame_quads m = updates.
Proof.
  intros updates m.
  assert (Hm : create_led_sysex updates = Returned (Some m)) by reflexivity.
  split; [exact Hm |].
  exact (proj1 (create_led_sysex_keeps_channels updates m Hm)).
Defined.

(** C3, as stated, fails: a channel value above 63 reaches the frame as it
    is. *)
Lemma create_led_sysex_clamps_counterexample :
  create_led_sysex [(11, (100, 64, 127))]
  = Returned (Some (mkMessage "sysex" [0x00; 0x20; 0x29; 0x02; 0x10; 0x0B;
                                       11; 100; 64; 127]))
  /\ ~ Forall channels_in_range
         (frame_quads (mkMessage "sysex" [0x00; 0x20; 0x29; 0x02; 0x10; 0x0B;
                                          11; 100; 64; 127])).
Proof.
  split; [reflexivity |].
  intros H. inversion H as [|u l Hu _]. cbn in Hu. lia.
Qed.

(** ** Shift *)

(** C4, as amended.  Pressing shift (note 106) sets [shift_held], returns
    the single update [(106, orange)] and leaves [led_state] as it was;
    releasing it clears [shift_held], returns the single update
    [(106, dim_white)] and again leaves [led_state] as it was. *)
Theorem shift_press_release (v_on v_off : Z) (self : VirtualM8) :
  let pressed := state_after (handle_note_on 106 v_on) self in
  let released := state_after (handle_note_off 106 v_off) pressed in
  value_of (handle_note_on 106 v_on) self = Ok [(106, M8_COLORS orange)]
  /\ shift_held pressed = true
  /\ led_state pressed = led_state self
  /\ value_of (handle_note_off 106 v_off) pressed
     = Ok [(106, M8_COLORS dim_white)]
  /\ shift_held released = false
  /\ led_state released = led_state self.
Proof.
  intros pressed released.
  destruct (handle_note_on_shift 106 v_on self) as [Hv1 Hs1];
    try reflexivity.
  destruct (handle_note_off_shift 106 v_off pressed) as [Hv2 Hs2];
    try reflexivity.
  subst released. rewrite Hv2, Hs2. subst pressed. rewrite Hv1, Hs1.
  repeat split.
Qed.

(** C4, as stated, fails: after a press from the boot state [led_state] has
    no item for the shift control, so it does not hold orange there; after
    the release it does not hold dim white either. *)
Lemma shift_recolors_led_state_counterexample :
  let pressed := state_after (handle_note_on 106 127) (boot false) in
  let released := state_after (handle_note_off 106 0) pressed in
  dict_get 106 (led_state pressed) <> Some (M8_COLORS orange)
  /\ dict_get 106 (led_state released) <> Some (M8_COLORS dim_white).
Proof. split; vm_compute; discriminate. Qed.

(** ** Grid cells *)

Lemma boot_verbose_led_state (verbose : bool) :
  led_state (boot verbose) = led_state (boot false).
Proof. destruct verbose; reflexivity. Qed.

Lemma boot_grid_cell_dim (verbose : bool) (c : Z) :
  grid_cell c ->
  dict_get c (led_state (boot verbose)) = Some (M8_COLORS dim_white).
Proof.
  intros (row & col & Hr & Hc & ->). rewrite boot_verbose_led_state.
  assert (Hrow : row = 1 \/ row = 2 \/ row = 3 \/ row = 4 \/ row = 5
                 \/ row = 6 \/ row = 7 \/ row = 8) by lia.
  assert (Hcol : col = 1 \/ col = 2 \/ col = 3 \/ col = 4 \/ col = 5
                 \/ col = 6 \/ col = 7 \/ col = 8) by lia.
  destruct Hrow as [-> | [-> | [-> | [-> | [-> | [-> | [-> | ->]]]]]]];
    destruct Hcol as [-> | [-> | [-> | [-> | [-> | [-> | [-> | ->]]]]]]];
    vm_compute; reflexivity.
Qed.

(** In a reachable state a grid cell is either dim or lit. *)
Lemma reachable_grid_hue (self : VirtualM8) :
  reachable self ->
  forall c, grid_cell c ->
    dict_get c (led_state self) = Some (M8_COLORS dim_white)
    \/ dict_get c (led_state self) = Some (M8_COLORS white).
Proof.
  induction 1
    as [verbose | self note velocity _ IH | self note velocity _ IH];
    intros c Hc.
  - left. apply boot_grid_cell_dim, Hc.
  - assert (Hg : is_grid_note c = true) by (apply is_grid_note_spec, Hc).
    destruct (is_track_note note) eqn:Ht.
    { destruct (handle_note_on_track note velocity self Ht) as [_ ->].
      cbn [led_state]. rewrite paint_selectors_get_other; [apply IH, Hc |].
      apply is_grid_not_track in Hg. rewrite <- is_track_note_spec.
      rewrite Hg. discriminate. }
    destruct (is_nav_note note) eqn:Hn.
    { destruct (handle_note_on_nav note velocity self Ht Hn) as [_ ->].
      cbn [led_state]. rewrite dict_get_set_other; [apply IH, Hc |].
      intros ->. apply is_grid_not_nav in Hg. congruence. }
    destruct (is_grid_note note) eqn:Hgn.
    { destruct (handle_note_on_grid note velocity self Ht Hn Hgn) as [_ ->].
      cbn [led_state]. rewrite dict_get_set.
      destruct (note =? c); [right; reflexivity | apply IH, Hc]. }
    destruct (note =? 106) eqn:Hs.
    { destruct (handle_note_on_shift note velocity self Ht Hn Hgn Hs)
        as [_ ->].
      apply IH, Hc. }
    destruct (handle_note_on_other note velocity self Ht Hn Hgn Hs)
      as [_ ->].
    apply IH, Hc.
  - assert (Hg : is_grid_note c = true) by (apply is_grid_note_spec, Hc).
    destruct (is_grid_note note) eqn:Hgn.
    { destruct (handle_note_off_grid note velocity self Hgn) as [_ ->].
      cbn [led_state]. rewrite dict_get_set.
      destruct (note =? c); [left; reflexivity | apply IH, Hc]. }
    destruct (is_nav_note note) eqn:Hn.
    { destruct (handle_note_off_nav note velocity self Hgn Hn) as [_ ->].
      cbn [led_state]. rewrite dict_get_set_other; [apply IH, Hc |].
      intros ->. apply is_grid_not_nav in Hg. congruence. }
    destruct (note =? 106) eqn:Hs.
    { destruct (handle_note_off_shift note velocity self Hgn Hn Hs)
        as [_ ->].
      apply IH, Hc. }
    destruct (handle_note_off_other note velocity self Hgn Hn Hs)
      as [_ ->].
    apply IH, Hc.
Qed.

(** C5.  From a reachable state, pressing and then releasing a grid cell [c]
    leaves [led_state[c]] at the cell's dim value: dim white, the value it
    has at boot.  Before the press the cell holds either that dim value or,
    when it is already lit, white; when it holds the dim value, the value
    after the release is the value before the press. *)
Theorem grid_press_release_round_trip (c v_on v_off : Z)
        (self : VirtualM8) :
  reachable self ->
  grid_cell c ->
  let pressed := state_after (handle_note_on c v_on) self in
  let released := state_after (handle_note_off c v_off) pressed in
  value_of (handle_note_on c v_on) self = Ok [(c, M8_COLORS white)]
  /\ value_of (handle_note_off c v_off) pressed
     = Ok [(c, M8_COLORS dim_white)]
  /\ dict_get c (led_state released) = Some (M8_COLORS dim_white)
  /\ (forall verbose,
        dict_get c (led_state (boot verbose)) = Some (M8_COLORS dim_white))
  /\ (dict_get c (led_state self) = Some (M8_COLORS dim_white)
      \/ dict_get c (led_state self) = Some (M8_COLORS white))
  /\ (dict_get c (led_state self) = Some (M8_COLORS dim_white) ->
      dict_get c (led_state released) = dict_get c (led_state self)).
Proof.
  intros Hr Hc pressed released.
  assert (Hg : is_grid_note c = true) by (apply is_grid_note_spec, Hc).
  destruct (handle_note_on_grid c v_on self) as [Hv1 Hs1];
    auto using is_grid_not_track, is_grid_not_nav.
  destruct (handle_note_off_grid c v_off pressed Hg) as [Hv2 Hs2].
  assert (Hfinal : dict_get c (led_state released)
                   = Some (M8_COLORS dim_white)).
  { subst released. rewrite Hs2. cbn [led_state].
    apply dict_get_set_same. }
  repeat split.
  - exact Hv1.
  - exact Hv2.
  - exact Hfinal.
  - intros verbose. apply boot_grid_cell_dim, Hc.
  - apply reachable_grid_hue; assumption.
  - intros Hpre. rewrite Hfinal, Hpre. reflexivity.
Qed.

Lemma grid_press_release_round_trip_witness :
  reachable (boot false)
  /\ grid_cell 34
  /\ dict_get 34 (led_state
                    (state_after (handle_note_off 34 0)
                       (state_after (handle_note_on 34 100) (boot false))))
     = Some (M8_COLORS dim_white).
Proof.
  assert (Hr : reachable (boot false)) by constructor.
  assert (Hc : grid_cell 34) by (exists 3, 4; lia).
  split; [exact Hr |]. split; [exact Hc |].
  destruct (grid_press_release_round_trip 34 100 0 (boot false) Hr Hc)
    as (_ & _ & H & _).
  exact H.
Defined.

(** ** The keys of [led_state] *)

Lemma has_role_bounds (k : Z) : has_role k = true -> 11 <= k < 99.
Proof.
  unfold has_role. rewrite !orb_true_iff.
  intros [[H | H] | H].
  - unfold is_grid_note in H. rewrite !andb_true_iff, !Z.leb_le in H. lia.
  - apply is_track_note_spec in H. lia.
  - apply is_nav_note_spec in H. lia.
Qed.

Lemma boot_keys_role (verbose : bool) (k : Z) :
  In k (dict_keys (led_state (boot verbose))) <-> has_role k = true.
Proof.
  rewrite boot_verbose_led_state. split.
  - intros H. vm_compute in H.
    repeat (destruct H as [<- | H]; [reflexivity |]). destruct H.
  - intros H.
    set (keys := dict_keys (led_state (boot false))).
    assert (Hall : forallb (fun j =>
                              implb (has_role j) (existsb (Z.eqb j) keys))
                           (range 11 99) = true)
      by (vm_compute; reflexivity).
    pose proof (forallb_range _ _ _ Hall k (has_role_bounds k H)) as Hk.
    cbv beta in Hk. rewrite H in Hk. cbn [implb] in Hk.
    apply existsb_exists in Hk. destruct Hk as (x & Hx & Hxk).
    apply Z.eqb_eq in Hxk. subst x. exact Hx.
Qed.

Lemma has_role_spec (k : Z) :
  has_role k = true <->
  grid_cell k \/ 91 <= k <= 98 \/ (k = 89 \/ k = 79 \/ k = 69 \/ k = 59).
Proof.
  unfold has_role.
  rewrite !orb_true_iff, is_grid_note_spec, is_track_note_spec,
    is_nav_note_spec.
  tauto.
Qed.

Lemma note_on_keeps_keys (note velocity : Z) (self : VirtualM8) :
  dict_keys (led_state self) = boot_keys ->
  dict_keys (led_state (state_after (handle_note_on note velocity) self))
  = boot_keys.
Proof.
  intros Hk.
  assert (Hrole : forall k,
             has_role k = true -> In k (dict_keys (led_state self))).
  { intros k H. rewrite Hk. apply (boot_keys_role false), H. }
  destruct (is_track_note note) eqn:Ht.
  { destruct (handle_note_on_track note velocity self Ht) as [_ ->].
    cbn [led_state]. rewrite paint_selectors_keys; [exact Hk |].
    intros k Hin. apply Hrole, has_role_spec. lia. }
  destruct (is_nav_note note) eqn:Hn.
  { destruct (handle_note_on_nav note velocity self Ht Hn) as [_ ->].
    cbn [led_state]. rewrite dict_keys_set_present; [exact Hk |].
    apply Hrole. unfold has_role. rewrite Hn. apply orb_true_r. }
  destruct (is_grid_note note) eqn:Hg.
  { destruct (handle_note_on_grid note velocity self Ht Hn Hg) as [_ ->].
    cbn [led_state]. rewrite dict_keys_set_present; [exact Hk |].
    apply Hrole. unfold has_role. rewrite Hg. reflexivity. }
  destruct (note =? 106) eqn:Hs.
  { destruct (handle_note_on_shift note velocity self Ht Hn Hg Hs) as [_ ->].
    exact Hk. }
  destruct (handle_note_on_other note velocity self Ht Hn Hg Hs) as [_ ->].
  exact Hk.
Qed.

Lemma note_off_keeps_keys (note velocity : Z) (self : VirtualM8) :
  dict_keys (led_state self) = boot_keys ->
  dict_keys (led_state (state_after (handle_note_off note velocity) self))
  = boot_keys.
Proof.
  intros Hk.
  assert (Hrole : forall k,
             has_role k = true -> In k (dict_keys (led_state self))).
  { intros k H. rewrite Hk. apply (boot_keys_role false), H. }
  destruct (is_grid_note note) eqn:Hg.
  { destruct (handle_note_off_grid note velocity self Hg) as [_ ->].
    cbn [led_state]. rewrite dict_keys_set_present; [exact Hk |].
    apply Hrole. unfold has_role. rewrite Hg. reflexivity. }
  destruct (is_nav_note note) eqn:Hn.
  { destruct (handle_note_off_nav note velocity self Hg Hn) as [_ ->].
    cbn [led_state]. rewrite dict_keys_set_present; [exact Hk |].
    apply Hrole. unfold has_role. rewrite Hn. apply orb_true_r. }
  destruct (note =? 106) eqn:Hs.
  { destruct (handle_note_off_shift note velocity self Hg Hn Hs) as [_ ->].
    exact Hk. }
  destruct (handle_note_off_other note velocity self Hg Hn Hs) as [_ ->].
  exact Hk.
Qed.

Lemma reachable_keys (self : VirtualM8) :
  reachable self -> dict_keys (led_state self) = boot_keys.
Proof.
  induction 1
    as [verbose | self note velocity _ IH | self note velocity _ IH].
  - unfold boot_keys. rewrite boot_verbose_led_state. reflexivity.
  - apply note_on_keeps_keys, IH.
  - apply note_off_keeps_keys, IH.
Qed.

Lemma boot_keys_NoDup : NoDup boot_keys.
Proof.
  assert (H : nodup Z.eq_dec boot_keys = boot_keys)
    by (vm_compute; reflexivity).
  rewrite <- H. apply NoDup_nodup.
Qed.

(** C9.  In every reachable state the keys of [led_state] are exactly the 76
    controls the constructor initialised, in the same order: the 64 grid
    cells, the selectors 91..98 and the navigation notes 89, 79, 69, 59.
    Note 106 is never a key, and [get_all_leds] returns the items of
    [led_state], so it never has an entry for note 106. *)
Theorem led_state_keys_invariant (self : VirtualM8) :
  reachable self ->
  let keys := dict_keys (led_state self) in
  (forall k, In k keys <->
     grid_cell k \/ 91 <= k <= 98
     \/ (k = 89 \/ k = 79 \/ k = 69 \/ k = 59))
  /\ List.length keys = 76%nat
  /\ NoDup keys
  /\ ~ In 106 keys
  /\ exists items,
       value_of get_all_leds self = Ok items
       /\ map fst items = keys
       /\ forall color, ~ In (106, color) items.
Proof.
  intros Hr keys. pose proof (reachable_keys self Hr) as Hk.
  assert (Hspec : forall k, In k keys <-> has_role k = true).
  { intros k. subst keys. rewrite Hk. apply (boot_keys_role false). }
  assert (H106 : ~ In 106 keys).
  { rewrite Hspec. discriminate. }
  repeat split.
  - rewrite Hspec. apply has_role_spec.
  - rewrite <- has_role_spec. apply Hspec.
  - subst keys. rewrite Hk. reflexivity.
  - subst keys. rewrite Hk. apply boot_keys_NoDup.
  - exact H106.
  - exists (led_state self). repeat split.
    intros color Hin. apply H106.
    apply (in_map fst) in Hin. exact Hin.
Qed.

Lemma led_state_keys_invariant_witness :
  reachable (state_after (handle_note_on 106 127) (boot true))
  /\ ~ In 106 (dict_keys (led_state
                 (state_after (handle_note_on 106 127) (boot true)))).
Proof.
  assert (Hr : reachable (state_after (handle_note_on 106 127) (boot true)))
    by (apply reachable_note_on, reachable_boot).
  split; [exact Hr |].
  destruct (led_state_keys_invariant _ Hr) as (_ & _ & _ & H & _).
  exact H.
Defined.

(** ** Pressing twice *)

(** C6.  A second press of the same control right after the first leaves
    [led_state] (items and their order), the selected track and the shift
    flag as the first press left them, and returns the same update; this
    holds from every state, reachable or not, whatever the two velocities. *)
Theorem press_twice_same_state (c v1 v2 : Z) (self : VirtualM8) :
  let once := state_after (handle_note_on c v1) self in
  let twice := state_after (handle_note_on c v2) once in
  led_state twice = led_state once
  /\ current_track twice = current_track once
  /\ shift_held twice = shift_held once
  /\ value_of (handle_note_on c v2) once
     = value_of (handle_note_on c v1) self.
Proof.
  intros once twice. subst twice.
  destruct (is_track_note c) eqn:Ht.
  { destruct (handle_note_on_track c v2 once Ht) as [-> ->].
    subst once.
    destruct (handle_note_on_track c v1 self Ht) as [-> ->].
    cbn [led_state current_track shift_held].
    rewrite paint_selectors_idem. repeat split. }
  destruct (is_nav_note c) eqn:Hn.
  { destruct (handle_note_on_nav c v2 once Ht Hn) as [-> ->].
    subst once.
    destruct (handle_note_on_nav c v1 self Ht Hn) as [-> ->].
    cbn [led_state current_track shift_held].
    rewrite dict_set_set_same. repeat split. }
  destruct (is_grid_note c) eqn:Hg.
  { destruct (handle_note_on_grid c v2 once Ht Hn Hg) as [-> ->].
    subst once.
    destruct (handle_note_on_grid c v1 self Ht Hn Hg) as [-> ->].
    cbn [led_state current_track shift_held].
    rewrite dict_set_set_same. repeat split. }
  destruct (c =? 106) eqn:Hs.
  { destruct (handle_note_on_shift c v2 once Ht Hn Hg Hs) as [-> ->].
    subst once.
    destruct (handle_note_on_shift c v1 self Ht Hn Hg Hs) as [-> ->].
    repeat split. }
  destruct (handle_note_on_other c v2 once Ht Hn Hg Hs) as [-> ->].
  subst once.
  destruct (handle_note_on_other c v1 self Ht Hn Hg Hs) as [-> ->].
  repeat split.
Qed.

(** ** Unrecognised identifiers *)

(** C7.  For a note that is no grid cell, no selector 91..98, none of the
    navigation notes 89, 79, 69, 59 and not 106, both handlers return the
    empty update list and leave the whole object, hence [led_state], the
    selected track and the shift flag, unchanged. *)
Theorem unrecognised_note_ignored (c velocity : Z) (self : VirtualM8) :
  ~ grid_cell c ->
  ~ 91 <= c <= 98 ->
  ~ (c = 89 \/ c = 79 \/ c = 69 \/ c = 59) ->
  c <> 106 ->
  value_of (handle_note_on c velocity) self = Ok []
  /\ state_after (handle_note_on c velocity) self = self
  /\ value_of (handle_note_off c velocity) self = Ok []
  /\ state_after (handle_note_off c velocity) self = self.
Proof.
  intros Hg Ht Hn Hs.
  rewrite <- is_grid_note_spec in Hg. apply not_true_is_false in Hg.
  rewrite <- is_track_note_spec in Ht. apply not_true_is_false in Ht.
  rewrite <- is_nav_note_spec in Hn. apply not_true_is_false in Hn.
  apply Z.eqb_neq in Hs.
  destruct (handle_note_on_other c velocity self Ht Hn Hg Hs) as [Hv1 Hs1].
  destruct (handle_note_off_other c velocity self Hg Hn Hs) as [Hv2 Hs2].
  repeat split; assumption.
Qed.

Lemma not_grid_cell_999 : ~ grid_cell 999.
Proof. intros (row & col & Hr & Hc & H). lia. Qed.

Lemma unrecognised_note_ignored_witness :
  value_of (handle_note_on 999 100) (boot false) = Ok []
  /\ state_after (handle_note_on 999 100) (boot false) = boot false
  /\ value_of (handle_note_off 999 100) (boot false) = Ok []
  /\ state_after (handle_note_off 999 100) (boot false) = boot false.
Proof.
  apply (unrecognised_note_ignored 999 100 (boot false)).
  - exact not_grid_cell_999.
  - lia.
  - lia.
  - lia.
Defined.

(** ** Navigation *)

(** C8.  From the boot state, pressing note 89 returns the single update
    [(89, blue)], releasing it then returns the single update
    [(89, dim_blue)], and [led_state[89]] ends at dim blue. *)
Theorem nav_up_press_release (verbose : bool) (v_on v_off : Z) :
  let pressed := state_after (handle_note_on 89 v_on) (boot verbose) in
  let released := state_after (handle_note_off 89 v_off) pressed in
  value_of (handle_note_on 89 v_on) (boot verbose)
  = Ok [(89, M8_COLORS blue)]
  /\ value_of (handle_note_off 89 v_off) pressed
     = Ok [(89, M8_COLORS dim_blue)]
  /\ dict_get 89 (led_state pressed) = Some (M8_COLORS blue)
  /\ dict_get 89 (led_state released) = Some (M8_COLORS dim_blue).
Proof.
  intros pressed released.
  destruct (handle_note_on_nav 89 v_on (boot verbose)) as [Hv1 Hs1];
    try reflexivity.
  destruct (handle_note_off_nav 89 v_off pressed) as [Hv2 Hs2];
    try reflexivity.
  subst released. rewrite Hv2, Hs2. subst pressed. rewrite Hv1, Hs1.
  cbn [led_state]. rewrite !dict_get_set_same. repeat split.
Qed.

(** ** Velocity *)

(** C10.  The velocity of a note-on has no influence on the returned update
    list nor on the state the call leaves. *)
Theorem note_on_velocity_noninterference (note v1 v2 : Z)
        (self : VirtualM8) :
  value_of (handle_note_on note v1) self
  = value_of (handle_note_on note v2) self
  /\ state_after (handle_note_on note v1) self
     = state_after (handle_note_on note v2) self.
Proof.
  unfold handle_note_on, value_of, state_after.
  rewrite !log_then. cbn [fst snd]. split; reflexivity.
Qed.

(** The velocity does reach the console: the two runs log different
    lines. *)
Lemma note_on_velocity_is_logged :
  output_of (handle_note_on 11 1) (boot false)
  <> output_of (handle_note_on 11 127) (boot false).
Proof. vm_compute. discriminate. Qed.

(** * Further properties of the state machine *)

(** The five ways a note-on can go, with the guards that select each. *)
Lemma handle_note_on_cases (note velocity : Z) (self : VirtualM8) :
  let value := value_of (handle_note_on note velocity) self in
  let after := state_after (handle_note_on note velocity) self in
  let relit := fun d =>
    mkVirtualM8 (verbose self) d (current_track self) (current_view self)
                (shift_held self) in
  (91 <= note <= 98
   /\ value = Ok (selector_row (note - 91))
   /\ after = mkVirtualM8 (verbose self)
                (paint_selectors (note - 91) (led_state self))
                (note - 91) (current_view self) (shift_held self))
  \/ ((note = 89 \/ note = 79 \/ note = 69 \/ note = 59)
      /\ value = Ok [(note, M8_COLORS blue)]
      /\ after = relit (dict_set note (M8_COLORS blue) (led_state self)))
  \/ (grid_cell note
      /\ value = Ok [(note, M8_COLORS white)]
      /\ after = relit (dict_set note (M8_COLORS white) (led_state self)))
  \/ (note = 106
      /\ value = Ok [(note, M8_COLORS orange)]
      /\ after = mkVirtualM8 (verbose self) (led_state self)
                   (current_track self) (current_view self) true)
  \/ (has_role note = false /\ note <> 106
      /\ value = Ok [] /\ after = self).
Proof.
  intros value after relit. subst value after relit.
  destruct (is_track_note note) eqn:Ht.
  { left. split; [apply is_track_note_spec, Ht |].
    apply handle_note_on_track, Ht. }
  destruct (is_nav_note note) eqn:Hn.
  { right; left. split; [apply is_nav_note_spec, Hn |].
    apply handle_note_on_nav; assumption. }
  destruct (is_grid_note note) eqn:Hg.
  { right; right; left. split; [apply is_grid_note_spec, Hg |].
    apply handle_note_on_grid; assumption. }
  destruct (note =? 106) eqn:Hs.
  { right; right; right; left. split; [apply Z.eqb_eq, Hs |].
    apply handle_note_on_shift; assumption. }
  right; right; right; right.
  split; [unfold has_role; rewrite Hg, Ht, Hn; reflexivity |].
  split; [apply Z.eqb_neq, Hs |].
  apply handle_note_on_other; assumption.
Qed.

(** The four ways a note-off can go. *)
Lemma handle_note_off_cases (note velocity : Z) (self : VirtualM8) :
  let value := value_of (handle_note_off note velocity) self in
  let after := state_after (handle_note_off note velocity) self in
  let relit := fun d =>
    mkVirtualM8 (verbose self) d (current_track self) (current_view self)
                (shift_held self) in
  (grid_cell note
   /\ value = Ok [(note, M8_COLORS dim_white)]
   /\ after = relit (dict_set note (M8_COLORS dim_white) (led_state self)))
  \/ ((note = 89 \/ note = 79 \/ note = 69 \/ note = 59)
      /\ value = Ok [(note, M8_COLORS dim_blue)]
      /\ after = relit (dict_set note (M8_COLORS dim_blue) (led_state self)))
  \/ (note = 106
      /\ value = Ok [(note, M8_COLORS dim_white)]
      /\ after = mkVirtualM8 (verbose self) (led_state self)
                   (current_track self) (current_view self) false)
  \/ (is_grid_note note = false /\ is_nav_note note = false /\ note <> 106
      /\ value = Ok [] /\ after = self).
Proof.
  intros value after relit. subst value after relit.
  destruct (is_grid_note note) eqn:Hg.
  { left. split; [apply is_grid_note_spec, Hg |].
    apply handle_note_off_grid, Hg. }
  destruct (is_nav_note note) eqn:Hn.
  { right; left. split; [apply is_nav_note_spec, Hn |].
    apply handle_note_off_nav; assumption. }
  destruct (note =? 106) eqn:Hs.
  { right; right; left. split; [apply Z.eqb_eq, Hs |].
    apply handle_note_off_shift; assumption. }
  right; right; right.
  split; [reflexivity |]. split; [reflexivity |].
  split; [apply Z.eqb_neq, Hs |].
  apply handle_note_off_other; assumption.
Qed.


Lemma grid_cell_bounds (c : Z) : grid_cell c -> 11 <= c <= 88.
Proof. intros (row & col & Hr & Hc & ->). lia. Qed.

(** ** The boot pattern *)

(** X1.  The constructor does not raise and leaves: track 0 selected, shift
    not held, every grid cell dim white, selector 91 cyan, selectors 92..98
    dim white, the four navigation notes dim blue, and no item for any
    other note. *)
Theorem boot_pattern (flag : bool) :
  fst (fst (__init__ flag)) = Ok tt
  /\ verbose (boot flag) = flag
  /\ current_track (boot flag) = 0
  /\ shift_held (boot flag) = false
  /\ (forall c, grid_cell c ->
        dict_get c (led_state (boot flag)) = Some (M8_COLORS dim_white))
  /\ dict_get 91 (led_state (boot flag)) = Some (M8_COLORS cyan)
  /\ (forall k, 92 <= k <= 98 ->
        dict_get k (led_state (boot flag)) = Some (M8_COLORS dim_white))
  /\ (forall k, k = 89 \/ k = 79 \/ k = 69 \/ k = 59 ->
        dict_get k (led_state (boot flag)) = Some (M8_COLORS dim_blue))
  /\ (forall k, has_role k = false ->
        dict_get k (led_state (boot flag)) = None).
Proof.
  split; [destruct flag; vm_compute; reflexivity |].
  split; [destruct flag; vm_compute; reflexivity |].
  split; [destruct flag; vm_compute; reflexivity |].
  split; [destruct flag; vm_compute; reflexivity |].
  split; [intros c Hc; apply boot_grid_cell_dim, Hc |].
  rewrite boot_verbose_led_state.
  split; [vm_compute; reflexivity |].
  split.
  { intros k Hk.
    assert (Hc : k = 92 \/ k = 93 \/ k = 94 \/ k = 95 \/ k = 96
                 \/ k = 97 \/ k = 98) by lia.
    destruct Hc as [-> | [-> | [-> | [-> | [-> | [-> | ->]]]]]];
      vm_compute; reflexivity. }
  split.
  { intros k [-> | [-> | [-> | ->]]]; vm_compute; reflexivity. }
  intros k Hk.
  destruct (dict_get k (led_state (boot false))) as [c |] eqn:E;
    [| reflexivity].
  assert (Hin : In k (dict_keys (led_state (boot false)))).
  { apply (proj2 (dict_get_keys k _)). rewrite E. discriminate. }
  apply (proj1 (boot_keys_role false k)) in Hin. congruence.
Qed.

(** ** The selector row follows the selected track *)

Lemma reachable_selector_row (self : VirtualM8) :
  reachable self ->
  0 <= current_track self <= 7
  /\ forall j, 0 <= j <= 7 ->
       dict_get (91 + j) (led_state self)
       = Some (if j =? current_track self then M8_COLORS cyan
               else M8_COLORS dim_white).
Proof.
  induction 1
    as [flag | self note velocity _ IH | self note velocity _ IH].
  - split; [destruct flag; vm_compute; split; discriminate |].
    intros j Hj. rewrite boot_verbose_led_state.
    replace (current_track (boot flag)) with 0
      by (destruct flag; vm_compute; reflexivity).
    assert (Hc : j = 0 \/ j = 1 \/ j = 2 \/ j = 3 \/ j = 4 \/ j = 5
                 \/ j = 6 \/ j = 7) by lia.
    destruct Hc as [-> | [-> | [-> | [-> | [-> | [-> | [-> | ->]]]]]]];
      vm_compute; reflexivity.
  - destruct IH as [IHt IHj].
    destruct (handle_note_on_cases note velocity self)
      as [(Hn & _ & ->) | [(Hn & _ & ->) | [(Hn & _ & ->)
          | [(Hn & _ & ->) | (_ & _ & _ & ->)]]]];
      cbn [current_track led_state].
    + split; [lia |]. intros j Hj.
      apply paint_selectors_get_selector, Hj.
    + split; [exact IHt |]. intros j Hj.
      rewrite dict_get_set_other by lia. apply IHj, Hj.
    + apply grid_cell_bounds in Hn.
      split; [exact IHt |]. intros j Hj.
      rewrite dict_get_set_other by lia. apply IHj, Hj.
    + split; assumption.
    + split; assumption.
  - destruct IH as [IHt IHj].
    destruct (handle_note_off_cases note velocity self)
      as [(Hn & _ & ->) | [(Hn & _ & ->) | [(Hn & _ & ->)
          | (_ & _ & _ & _ & ->)]]];
      cbn [current_track led_state].
    + apply grid_cell_bounds in Hn.
      split; [exact IHt |]. intros j Hj.
      rewrite dict_get_set_other by lia. apply IHj, Hj.
    + split; [exact IHt |]. intros j Hj.
      rewrite dict_get_set_other by lia. apply IHj, Hj.
    + split; assumption.
    + split; assumption.
Qed.

(** X2.  In every reachable state the selected track is one of 0..7 and the
    selector row shows it: selector [91 + j] is cyan when [j] is the
    selected track and dim white otherwise. *)
Theorem selector_row_shows_track (self : VirtualM8) :
  reachable self ->
  0 <= current_track self <= 7
  /\ forall j, 0 <= j <= 7 ->
       dict_get (91 + j) (led_state self)
       = Some (if j =? current_track self then M8_COLORS cyan
               else M8_COLORS dim_white).
Proof. exact (reachable_selector_row self). Qed.

Lemma selector_row_shows_track_witness :
  reachable (state_after (handle_note_on 95 64) (boot false))
  /\ dict_get (91 + 4)
       (led_state (state_after (handle_note_on 95 64) (boot false)))
     = Some (M8_COLORS cyan)
  /\ dict_get (91 + 0)
       (led_state (state_after (handle_note_on 95 64) (boot false)))
     = Some (M8_COLORS dim_white).
Proof.
  assert (Hr : reachable (state_after (handle_note_on 95 64) (boot false)))
    by (apply reachable_note_on, reachable_boot).
  split; [exact Hr |].
  destruct (selector_row_shows_track _ Hr) as [_ H].
  split; [exact (H 4 ltac:(lia)) | exact (H 0 ltac:(lia))].
Defined.

(** ** The hues a control can show *)

Lemma reachable_nav_hue (self : VirtualM8) :
  reachable self ->
  forall k, k = 89 \/ k = 79 \/ k = 69 \/ k = 59 ->
    dict_get k (led_state self) = Some (M8_COLORS dim_blue)
    \/ dict_get k (led_state self) = Some (M8_COLORS blue).
Proof.
  induction 1
    as [flag | self note velocity _ IH | self note velocity _ IH];
    intros k Hk.
  - left. rewrite boot_verbose_led_state.
    destruct Hk as [-> | [-> | [-> | ->]]]; vm_compute; reflexivity.
  - destruct (handle_note_on_cases note velocity self)
      as [(Hn & _ & ->) | [(Hn & _ & ->) | [(Hn & _ & ->)
          | [(Hn & _ & ->) | (_ & _ & _ & ->)]]]];
      cbn [led_state]; try (apply IH, Hk).
    + rewrite paint_selectors_get_other by lia. apply IH, Hk.
    + rewrite dict_get_set.
      destruct (note =? k); [right; reflexivity | apply IH, Hk].
    + destruct Hn as (row & col & Hrow & Hcol & ->).
      rewrite dict_get_set_other by lia. apply IH, Hk.
  - destruct (handle_note_off_cases note velocity self)
      as [(Hn & _ & ->) | [(Hn & _ & ->) | [(Hn & _ & ->)
          | (_ & _ & _ & _ & ->)]]];
      cbn [led_state]; try (apply IH, Hk).
    + destruct Hn as (row & col & Hrow & Hcol & ->).
      rewrite dict_get_set_other by lia. apply IH, Hk.
    + rewrite dict_get_set.
      destruct (note =? k); [left; reflexivity | apply IH, Hk].
Qed.

Lemma reachable_hue_cases (self : VirtualM8) (k : Z) (c : Color) :
  reachable self ->
  dict_get k (led_state self) = Some c ->
  (grid_cell k /\ (c = M8_COLORS dim_white \/ c = M8_COLORS white))
  \/ (91 <= k <= 98 /\ (c = M8_COLORS cyan \/ c = M8_COLORS dim_white))
  \/ ((k = 89 \/ k = 79 \/ k = 69 \/ k = 59)
      /\ (c = M8_COLORS dim_blue \/ c = M8_COLORS blue)).
Proof.
  intros Hr Hget.
  assert (Hin : In k (dict_keys (led_state self))).
  { apply (proj2 (dict_get_keys k _)). rewrite Hget. discriminate. }
  rewrite (reachable_keys self Hr) in Hin.
  apply (proj1 (boot_keys_role false k)) in Hin.
  apply (proj1 (has_role_spec k)) in Hin.
  destruct Hin as [Hg | [Ht | Hn]].
  - left. split; [exact Hg |].
    destruct (reachable_grid_hue self Hr k Hg) as [H | H];
      rewrite H in Hget; injection Hget as <-; auto.
  - right; left. split; [exact Ht |].
    destruct (reachable_selector_row self Hr) as [_ Hrow].
    specialize (Hrow (k - 91) ltac:(lia)).
    replace (91 + (k - 91)) with k in Hrow by lia.
    rewrite Hrow in Hget. injection Hget as <-.
    destruct (k - 91 =? current_track self); auto.
  - right; right. split; [exact Hn |].
    destruct (reachable_nav_hue self Hr k Hn) as [H | H];
      rewrite H in Hget; injection Hget as <-; auto.
Qed.

(** X3.  In every reachable state each item of [led_state] belongs to a
    grid cell showing dim white or white, to a selector showing cyan or dim
    white, or to a navigation note showing dim blue or blue. *)
Theorem reachable_hues (self : VirtualM8) (k : Z) (c : Color) :
  reachable self ->
  dict_get k (led_state self) = Some c ->
  (grid_cell k /\ (c = M8_COLORS dim_white \/ c = M8_COLORS white))
  \/ (91 <= k <= 98 /\ (c = M8_COLORS cyan \/ c = M8_COLORS dim_white))
  \/ ((k = 89 \/ k = 79 \/ k = 69 \/ k = 59)
      /\ (c = M8_COLORS dim_blue \/ c = M8_COLORS blue)).
Proof. exact (reachable_hue_cases self k c). Qed.

Lemma reachable_hues_witness :
  reachable (state_after (handle_note_on 89 1) (boot false))
  /\ dict_get 89 (led_state (state_after (handle_note_on 89 1) (boot false)))
     = Some (M8_COLORS blue).
Proof.
  assert (Hr : reachable (state_after (handle_note_on 89 1) (boot false)))
    by (apply reachable_note_on, reachable_boot).
  assert (Hget : dict_get 89
            (led_state (state_after (handle_note_on 89 1) (boot false)))
          = Some (M8_COLORS blue)) by (vm_compute; reflexivity).
  pose proof (reachable_hues _ 89 _ Hr Hget) as _.
  split; [exact Hr | exact Hget].
Defined.


(** ** What a handler leaves alone *)

(** X4.  Releasing a track selector does nothing: the update list is empty
    and the object, selected track included, is unchanged. *)
Theorem selector_release_ignored (note velocity : Z) (self : VirtualM8) :
  91 <= note <= 98 ->
  value_of (handle_note_off note velocity) self = Ok []
  /\ state_after (handle_note_off note velocity) self = self.
Proof.
  intros Hn.
  destruct (handle_note_off_cases note velocity self)
    as [(Hc & _) | [(Hc & _) | [(Hc & _) | (_ & _ & _ & Hv & Hs)]]].
  - apply grid_cell_bounds in Hc. lia.
  - lia.
  - lia.
  - split; assumption.
Qed.

Lemma selector_release_ignored_witness :
  91 <= 93 <= 98
  /\ value_of (handle_note_off 93 0)
       (state_after (handle_note_on 93 90) (boot false)) = Ok []
  /\ current_track
       (state_after (handle_note_off 93 0)
          (state_after (handle_note_on 93 90) (boot false))) = 2.
Proof.
  split; [lia |].
  destruct (selector_release_ignored 93 0
              (state_after (handle_note_on 93 90) (boot false))
              ltac:(lia)) as [Hv Hs].
  split; [exact Hv |]. rewrite Hs. vm_compute. reflexivity.
Defined.



(** X6.  A press or a release of a note that is neither a selector nor 106
    leaves the selected track, the shift flag, the view and the verbose
    flag as they were. *)
Theorem context_untouched (note velocity : Z) (self : VirtualM8) :
  ~ 91 <= note <= 98 ->
  note <> 106 ->
  let pressed := state_after (handle_note_on note velocity) self in
  let released := state_after (handle_note_off note velocity) self in
  current_track pressed = current_track self
  /\ shift_held pressed = shift_held self
  /\ current_view pressed = current_view self
  /\ verbose pressed = verbose self
  /\ current_track released = current_track self
  /\ shift_held released = shift_held self
  /\ current_view released = current_view self
  /\ verbose released = verbose self.
Proof.
  intros Ht Hs pressed released. subst pressed released.
  destruct (handle_note_on_cases note velocity self)
    as [(Hn & _ & ->) | [(Hn & _ & ->) | [(Hn & _ & ->)
        | [(Hn & _ & ->) | (_ & _ & _ & ->)]]]];
    try contradiction;
    destruct (handle_note_off_cases note velocity self)
      as [(Hm & _ & ->) | [(Hm & _ & ->) | [(Hm & _ & ->)
          | (_ & _ & _ & _ & ->)]]];
    try contradiction; repeat split.
Qed.

Lemma context_untouched_witness :
  current_track (state_after (handle_note_on 89 100) (boot false))
  = current_track (boot false)
  /\ shift_held (state_after (handle_note_off 89 100) (boot false))
     = shift_held (boot false).
Proof.
  destruct (context_untouched 89 100 (boot false) ltac:(lia) ltac:(lia))
    as (H1 & _ & _ & _ & _ & H2 & _).
  split; [exact H1 | exact H2].
Defined.

(** ** Updates and [led_state] agree *)

Lemma handler_updates_mirror (note velocity : Z) (self : VirtualM8) :
  (exists updates,
     value_of (handle_note_on note velocity) self = Ok updates
     /\ forall n c, In (n, c) updates -> n <> 106 ->
          dict_get n
            (led_state (state_after (handle_note_on note velocity) self))
          = Some c)
  /\ (exists updates,
        value_of (handle_note_off note velocity) self = Ok updates
        /\ forall n c, In (n, c) updates -> n <> 106 ->
             dict_get n
               (led_state (state_after (handle_note_off note velocity) self))
             = Some c).
Proof.
  split.
  - destruct (handle_note_on_cases note velocity self)
      as [(Hn & -> & ->) | [(Hn & -> & ->) | [(Hn & -> & ->)
          | [(Hn & -> & ->) | (_ & _ & -> & ->)]]]];
      eexists; (split; [reflexivity |]); cbn [led_state];
      intros n c Hin Hne.
    + unfold selector_row in Hin. apply in_map_iff in Hin.
      destruct Hin as (j & [= <- <-] & Hj). apply In_range in Hj.
      apply paint_selectors_get_selector. lia.
    + destruct Hin as [[= <- <-] | []]. apply dict_get_set_same.
    + destruct Hin as [[= <- <-] | []]. apply dict_get_set_same.
    + destruct Hin as [[= <- <-] | []]. contradiction.
    + destruct Hin.
  - destruct (handle_note_off_cases note velocity self)
      as [(Hn & -> & ->) | [(Hn & -> & ->) | [(Hn & -> & ->)
          | (_ & _ & _ & -> & ->)]]];
      eexists; (split; [reflexivity |]); cbn [led_state];
      intros n c Hin Hne.
    + destruct Hin as [[= <- <-] | []]. apply dict_get_set_same.
    + destruct Hin as [[= <- <-] | []]. apply dict_get_set_same.
    + destruct Hin as [[= <- <-] | []]. contradiction.
    + destruct Hin.
Qed.

(** X7.  Neither handler raises, and every update it returns for a note
    other than 106 is the colour [led_state] holds for that note once the
    call is over. *)
Theorem updates_mirror_led_state (note velocity : Z) (self : VirtualM8) :
  (exists updates,
     value_of (handle_note_on note velocity) self = Ok updates
     /\ forall n c, In (n, c) updates -> n <> 106 ->
          dict_get n
            (led_state (state_after (handle_note_on note velocity) self))
          = Some c)
  /\ (exists updates,
        value_of (handle_note_off note velocity) self = Ok updates
        /\ forall n c, In (n, c) updates -> n <> 106 ->
             dict_get n
               (led_state (state_after (handle_note_off note velocity) self))
             = Some c).
Proof. exact (handler_updates_mirror note velocity self). Qed.

(** ** Press then release *)

(** X8.  Pressing and then releasing a control that shows its resting
    state (a dim white grid cell, a dim blue navigation note, or shift
    while not held) gives back the very object the press started from. *)
Theorem press_release_restores (c v_on v_off : Z) (self : VirtualM8) :
  (grid_cell c /\ dict_get c (led_state self) = Some (M8_COLORS dim_white))
  \/ ((c = 89 \/ c = 79 \/ c = 69 \/ c = 59)
      /\ dict_get c (led_state self) = Some (M8_COLORS dim_blue))
  \/ (c = 106 /\ shift_held self = false) ->
  state_after (handle_note_off c v_off)
    (state_after (handle_note_on c v_on) self)
  = self.
Proof.
  intros Hrest.
  set (pressed := state_after (handle_note_on c v_on) self).
  destruct self as [vb leds track view held].
  cbn [led_state shift_held] in Hrest.
  destruct Hrest as [[Hc Hget] | [[Hc Hget] | [Hc Hheld]]].
  - assert (Hg : is_grid_note c = true) by (apply is_grid_note_spec, Hc).
    destruct (handle_note_off_grid c v_off pressed Hg) as [_ ->].
    subst pressed.
    destruct (handle_note_on_grid c v_on (mkVirtualM8 vb leds track view held))
      as [_ ->]; auto using is_grid_not_track, is_grid_not_nav.
    cbn [led_state verbose current_track current_view shift_held].
    rewrite dict_set_set_same, (dict_set_get_id c _ leds Hget).
    reflexivity.
  - assert (Hn : is_nav_note c = true) by (apply is_nav_note_spec, Hc).
    assert (Hg : is_grid_note c = false).
    { destruct Hc as [-> | [-> | [-> | ->]]]; reflexivity. }
    destruct (handle_note_off_nav c v_off pressed Hg Hn) as [_ ->].
    subst pressed.
    destruct (handle_note_on_nav c v_on (mkVirtualM8 vb leds track view held))
      as [_ ->]; auto using is_nav_not_track.
    cbn [led_state verbose current_track current_view shift_held].
    rewrite dict_set_set_same, (dict_set_get_id c _ leds Hget).
    reflexivity.
  - subst c held.
    reflexivity.
Qed.

Lemma press_release_restores_witness :
  state_after (handle_note_off 34 0)
    (state_after (handle_note_on 34 100) (boot false))
  = boot false.
Proof.
  apply press_release_restores. left. split.
  - exists 3, 4. lia.
  - vm_compute. reflexivity.
Defined.


(** ** Presses on different controls *)

Lemma dict_set_comm (a b : Z) (v w : Color) (d : dict) :
  a <> b ->
  In a (dict_keys d) ->
  dict_set a v (dict_set b w d) = dict_set b w (dict_set a v d).
Proof.
  intros Hab. induction d as [|[k0 v0] d IH]; cbn [dict_keys map fst In].
  - intros [].
  - intros Hin. cbn [dict_set].
    destruct (k0 =? b) eqn:Eb; destruct (k0 =? a) eqn:Ea;
      cbn [dict_set]; rewrite ?Eb, ?Ea; try reflexivity.
    + apply Z.eqb_eq in Eb, Ea. congruence.
    + apply Z.eqb_neq in Ea. destruct Hin as [Hin | Hin]; [contradiction |].
      rewrite (IH Hin). reflexivity.
Qed.

Ltac rewrite_note_on n v s :=
  first
    [ rewrite (proj2 (handle_note_on_nav n v s
                        ltac:(assumption) ltac:(assumption)))
    | rewrite (proj2 (handle_note_on_grid n v s
                        ltac:(assumption) ltac:(assumption)
                        ltac:(assumption)))
    | rewrite (proj2 (handle_note_on_shift n v s
                        ltac:(assumption) ltac:(assumption)
                        ltac:(assumption) ltac:(assumption)))
    | rewrite (proj2 (handle_note_on_other n v s
                        ltac:(assumption) ltac:(assumption)
                        ltac:(assumption) ltac:(assumption))) ].

(** X9.  From a reachable state, presses of two different notes, neither of
    them a track selector, can be handled in either order: the resulting
    object is the same. *)
Theorem presses_commute (a b va vb : Z) (self : VirtualM8) :
  reachable self ->
  a <> b ->
  ~ 91 <= a <= 98 ->
  ~ 91 <= b <= 98 ->
  state_after (handle_note_on b vb) (state_after (handle_note_on a va) self)
  = state_after (handle_note_on a va)
      (state_after (handle_note_on b vb) self).
Proof.
  intros Hr Hab Ha Hb.
  assert (Hkeys : forall k, has_role k = true ->
                    In k (dict_keys (led_state self))).
  { intros k Hk. rewrite (reachable_keys self Hr).
    apply (proj2 (boot_keys_role false k)), Hk. }
  assert (Hta : is_track_note a = false).
  { apply not_true_is_false. rewrite is_track_note_spec. exact Ha. }
  assert (Htb : is_track_note b = false).
  { apply not_true_is_false. rewrite is_track_note_spec. exact Hb. }
  assert (Hra : is_nav_note a = true \/ is_grid_note a = true ->
                In a (dict_keys (led_state self))).
  { intros H. apply Hkeys. unfold has_role.
    destruct H as [-> | ->]; auto using orb_true_r. }
  destruct (is_nav_note a) eqn:Hna;
    [| destruct (is_grid_note a) eqn:Hga; [| destruct (a =? 106) eqn:Hsa]];
    (destruct (is_nav_note b) eqn:Hnb;
     [| destruct (is_grid_note b) eqn:Hgb; [| destruct (b =? 106) eqn:Hsb]]);
    repeat match goal with
           | |- context [state_after (handle_note_on ?n ?v) ?s] =>
               rewrite_note_on n v s
           end;
    cbn [led_state verbose current_track current_view shift_held];
    try reflexivity;
    f_equal; symmetry; apply dict_set_comm; auto.
Qed.

Lemma presses_commute_witness :
  state_after (handle_note_on 89 1) (state_after (handle_note_on 11 1)
                                       (boot false))
  = state_after (handle_note_on 11 1) (state_after (handle_note_on 89 1)
                                         (boot false)).
Proof.
  apply presses_commute; [constructor | lia | lia | lia].
Defined.

(** ** The encoder is unambiguous *)

(** X10.  Two update lists for which [create_led_sysex] returns the same
    result (the same frame, or both no frame) are the same list. *)
Theorem create_led_sysex_injective (us1 us2 : list (Z * Color))
        (r : option Message) :
  create_led_sysex us1 = Returned r ->
  create_led_sysex us2 = Returned r ->
  us1 = us2.
Proof.
  intros H1 H2. destruct r as [m |].
  - rewrite <- (frame_quads_create_led_sysex _ _ H1).
    apply frame_quads_create_led_sysex, H2.
  - assert (Hnil : forall us, create_led_sysex us = Returned None -> us = []).
    { intros [|u us] H; [reflexivity |].
      rewrite create_led_sysex_bytes in H.
      destruct (mido_sysex (frame_bytes (u :: us))); discriminate H. }
    rewrite (Hnil _ H1), (Hnil _ H2). reflexivity.
Qed.

Lemma create_led_sysex_injective_witness :
  let r := Some (mkMessage "sysex" [0; 32; 41; 2; 16; 11; 11; 63; 63; 63]) in
  create_led_sysex [(11, M8_COLORS white)] = Returned r
  /\ create_led_sysex [(11, (63, 63, 63))] = Returned r
  /\ [(11, M8_COLORS white)] = [(11, (63, 63, 63))].
Proof.
  intros r.
  assert (H1 : create_led_sysex [(11, M8_COLORS white)] = Returned r)
    by reflexivity.
  assert (H2 : create_led_sysex [(11, (63, 63, 63))] = Returned r)
    by reflexivity.
  split; [exact H1 |]. split; [exact H2 |].
  exact (create_led_sysex_injective _ _ r H1 H2).
Defined.

(** * The main loop *)

Lemma sent_frames_app (out1 out2 : list IOEvent) :
  sent_frames (out1 ++ out2) = sent_frames out1 ++ sent_frames out2.
Proof. unfold sent_frames. apply flat_map_app. Qed.

Lemma sent_frames_logged (out : list LogEntry) :
  sent_frames (map Logged out) = [].
Proof. induction out as [|e out IH]; [reflexivity | exact IH]. Qed.

Lemma handle_note_on_returns (note velocity : Z) (self : VirtualM8) :
  exists updates, value_of (handle_note_on note velocity) self = Ok updates.
Proof.
  destruct (handle_note_on_cases note velocity self)
    as [(_ & H & _) | [(_ & H & _) | [(_ & H & _)
        | [(_ & H & _) | (_ & _ & H & _)]]]];
    eexists; exact H.
Qed.

Lemma handle_note_off_returns (note velocity : Z) (self : VirtualM8) :
  exists updates, value_of (handle_note_off note velocity) self = Ok updates.
Proof.
  destruct (handle_note_off_cases note velocity self)
    as [(_ & H & _) | [(_ & H & _) | [(_ & H & _)
        | (_ & _ & _ & H & _)]]];
    eexists; exact H.
Qed.

(** ** The updates of the handlers are made of MIDI data bytes *)

Lemma handler_updates_fit (note velocity : Z) (self : VirtualM8)
      (updates : list (Z * Color)) :
  value_of (handle_note_on note velocity) self = Ok updates
  \/ value_of (handle_note_off note velocity) self = Ok updates ->
  Forall (fun u => seven_bit (fst u) /\ channels_in_range u) updates.
Proof.
  unfold seven_bit.
  intros [Hv | Hv].
  - destruct (handle_note_on_cases note velocity self)
      as [(Hn & Hv' & _) | [(Hn & Hv' & _) | [(Hn & Hv' & _)
          | [(Hn & Hv' & _) | (_ & _ & Hv' & _)]]]];
      rewrite Hv in Hv'; injection Hv' as ->.
    + apply Forall_forall. intros [n c] Hin.
      unfold selector_row in Hin. apply in_map_iff in Hin.
      destruct Hin as (j & Heq & Hj). apply In_range in Hj.
      pose proof (f_equal fst Heq) as Hfst.
      pose proof (f_equal snd Heq) as Hsnd.
      cbn [fst snd] in Hfst, Hsnd. subst n c.
      unfold selector_color, channels_in_range.
      destruct (j =? note - 91); unfold M8_COLORS; cbn [fst]; lia.
    + repeat constructor; unfold M8_COLORS; cbn [fst]; lia.
    + apply grid_cell_bounds in Hn.
      repeat constructor; unfold M8_COLORS; cbn [fst]; lia.
    + repeat constructor; unfold M8_COLORS; cbn [fst]; lia.
    + constructor.
  - destruct (handle_note_off_cases note velocity self)
      as [(Hn & Hv' & _) | [(Hn & Hv' & _) | [(Hn & Hv' & _)
          | (_ & _ & _ & Hv' & _)]]];
      rewrite Hv in Hv'; injection Hv' as ->.
    + apply grid_cell_bounds in Hn.
      repeat constructor; unfold M8_COLORS; cbn [fst]; lia.
    + repeat constructor; unfold M8_COLORS; cbn [fst]; lia.
    + repeat constructor; unfold M8_COLORS; cbn [fst]; lia.
    + constructor.
Qed.

Lemma in_range_fits_bytes (updates : list (Z * Color)) :
  Forall (fun u => seven_bit (fst u) /\ channels_in_range u) updates ->
  Forall update_fits_bytes updates.
Proof.
  apply Forall_impl. intros [n [[r g] b]] [Hn (Hr & Hg & Hb)].
  cbn [fst] in Hn. unfold update_fits_bytes, seven_bit in *. lia.
Qed.

(** ** One message *)

Lemma call_run {A : Type} (m : M A) (m8 : VirtualM8) (a : A) :
  value_of m m8 = Ok a ->
  call m m8 = (Returned a, state_after m m8, map Logged (output_of m m8)).
Proof.
  unfold call, value_of, state_after, output_of.
  destruct (m m8) as [[r s] out]. cbn [fst snd]. intros ->. reflexivity.
Qed.

(** What the loop does with the update list a handler returned. *)
Lemma process_message_handled (m : M (list (Z * Color)))
      (updates : list (Z * Color)) (m8 : VirtualM8) :
  value_of m m8 = Ok updates ->
  Forall update_fits_bytes updates ->
  let run :=
    io_bind (call m) (fun updates =>
      match updates with
      | [] => io_ret tt
      | _ :: _ =>
          io_bind (io_lift (create_led_sysex updates)) (fun sysex =>
            match sysex with
            | Some frame =>
                io_bind (send frame) (fun _ =>
                  io_log ("LED update: " ++ str (len updates) ++ " LEDs")
                         "tx")
            | None => io_ret tt
            end)
      end) m8 in
  fst run = (Returned tt, state_after m m8)
  /\ sent_frames (snd run)
     = match updates with
       | [] => []
       | _ :: _ => [mkMessage "sysex" (frame_bytes updates)]
       end.
Proof.
  intros Hv Hfit run. subst run. unfold io_bind.
  rewrite (call_run _ _ _ Hv). cbv beta iota.
  destruct updates as [|u updates].
  - cbn [io_ret fst snd]. rewrite app_nil_r, sent_frames_logged.
    split; reflexivity.
  - unfold io_lift. rewrite (create_led_sysex_fits _ _ Hfit).
    cbn [send io_log fst snd app].
    rewrite sent_frames_app, sent_frames_logged. split; reflexivity.
Qed.

(** The three ways the loop body can go. *)
Lemma process_message_cases (verbose : bool) (msg : MidiMessage)
      (m8 : VirtualM8) :
  let run := process_message verbose msg m8 in
  exists updates,
    fst (fst run) = Returned tt
    /\ sent_frames (snd run)
       = match updates with
         | [] => []
         | _ :: _ => [mkMessage "sysex" (frame_bytes updates)]
         end
    /\ Forall (fun u => seven_bit (fst u) /\ channels_in_range u) updates
    /\ ((exists note velocity,
           msg = note_on note velocity /\ velocity > 0
           /\ value_of (handle_note_on note velocity) m8 = Ok updates
           /\ snd (fst run) = state_after (handle_note_on note velocity) m8)
        \/ (exists note,
              ((exists velocity, msg = note_off note velocity)
               \/ msg = note_on note 0)
              /\ value_of (handle_note_off note 0) m8 = Ok updates
              /\ snd (fst run) = state_after (handle_note_off note 0) m8)
        \/ (updates = [] /\ snd (fst run) = m8
            /\ match msg with
               | note_on _ velocity => velocity < 0
               | note_off _ _ => False
               | _ => True
               end)).
Proof.
  intros run. subst run.
  destruct msg as [note velocity | note velocity | control value
                   | bytes | type]; unfold process_message.
  - destruct (velocity >? 0) eqn:Hpos.
    + destruct (handle_note_on_returns note velocity m8) as [updates Hv].
      pose proof (handler_updates_fit note velocity m8 updates
                    (or_introl Hv)) as Hfit.
      destruct (process_message_handled _ _ _ Hv (in_range_fits_bytes _ Hfit))
        as [H1 H2].
      exists updates. rewrite H2.
      split; [rewrite (surjective_pairing (fst _)), H1; reflexivity |].
      split; [reflexivity |]. split; [exact Hfit |].
      left. exists note, velocity.
      split; [reflexivity |]. split; [lia |]. split; [exact Hv |].
      rewrite H1. reflexivity.
    + destruct (velocity =? 0) eqn:Hzero.
      * apply Z.eqb_eq in Hzero. subst velocity.
        destruct (handle_note_off_returns note 0 m8) as [updates Hv].
        pose proof (handler_updates_fit note 0 m8 updates
                      (or_intror Hv)) as Hfit.
        destruct (process_message_handled _ _ _ Hv
                    (in_range_fits_bytes _ Hfit)) as [H1 H2].
        exists updates. rewrite H2.
        split; [rewrite (surjective_pairing (fst _)), H1; reflexivity |].
        split; [reflexivity |]. split; [exact Hfit |].
        right; left. exists note.
        split; [right; reflexivity |]. split; [exact Hv |].
        rewrite H1. reflexivity.
      * exists []. repeat split; [constructor |].
        right; right. repeat split.
        apply Z.eqb_neq in Hzero. lia.
  - destruct (handle_note_off_returns note 0 m8) as [updates Hv].
    pose proof (handler_updates_fit note 0 m8 updates
                  (or_intror Hv)) as Hfit.
    destruct (process_message_handled _ _ _ Hv (in_range_fits_bytes _ Hfit))
      as [H1 H2].
    exists updates. rewrite H2.
    split; [rewrite (surjective_pairing (fst _)), H1; reflexivity |].
    split; [reflexivity |]. split; [exact Hfit |].
    right; left. exists note.
    split; [left; exists velocity; reflexivity |]. split; [exact Hv |].
    rewrite H1. reflexivity.
  - exists []. repeat split; [constructor |]. right; right. repeat split.
  - exists []. destruct verbose; (repeat split; [constructor |]);
      right; right; repeat split.
  - exists []. repeat split; [constructor |]. right; right. repeat split.
Qed.

(** X11.  A note-on with velocity 0 is handled exactly as a note-off of the
    same note, whatever velocity the note-off carries: same result, same
    object, same events. *)
Theorem zero_velocity_note_on_is_release (verbose : bool)
        (note velocity : Z) (m8 : VirtualM8) :
  process_message verbose (note_on note 0) m8
  = process_message verbose (note_off note velocity) m8.
Proof. reflexivity. Qed.

(** X12.  A control change, a sysex, a message of another type, or a
    note-on with a negative velocity changes nothing in the object and
    sends no frame. *)
Theorem other_messages_ignored (verbose : bool) (msg : MidiMessage)
        (m8 : VirtualM8) :
  match msg with
  | note_on _ velocity => velocity < 0
  | note_off _ _ => False
  | _ => True
  end ->
  fst (process_message verbose msg m8) = (Returned tt, m8)
  /\ sent_frames (snd (process_message verbose msg m8)) = [].
Proof.
  destruct msg as [note velocity | note velocity | control value
                   | bytes | type]; intros H.
  - unfold process_message.
    replace (velocity >? 0) with false by lia.
    replace (velocity =? 0) with false by lia.
    split; reflexivity.
  - destruct H.
  - split; reflexivity.
  - destruct verbose; split; reflexivity.
  - split; reflexivity.
Qed.

Lemma other_messages_ignored_witness :
  fst (process_message true (sysex [0; 32; 41; 2; 16; 14; 0]) (boot true))
  = (Returned tt, boot true)
  /\ sent_frames
       (snd (process_message true (sysex [0; 32; 41; 2; 16; 14; 0])
               (boot true))) = [].
Proof.
  apply (other_messages_ignored true (sysex [0; 32; 41; 2; 16; 14; 0])).
  exact I.
Defined.





(** ** Every frame is made of MIDI data bytes *)

Lemma process_message_frames_fit (verbose : bool) (msg : MidiMessage)
        (m8 : VirtualM8) (frame : Message) :
  In frame (sent_frames (snd (process_message verbose msg m8))) ->
  Forall seven_bit (data frame)
  /\ Forall channels_in_range (frame_quads frame).
Proof.
  intros Hframe.
  destruct (process_message_cases verbose msg m8)
    as (updates & _ & Hsent & Hfit & _).
  rewrite Hsent in Hframe.
  destruct updates as [|u updates]; [destruct Hframe |].
  destruct Hframe as [<- | []]. split.
  - cbn [data]. apply frame_bytes_fit, in_range_fits_bytes, Hfit.
  - rewrite frame_quads_frame_bytes.
    revert Hfit. apply Forall_impl. intros x [_ H]. exact H.
Qed.



(** ** Any number of messages *)

Lemma process_message_reachable (verbose : bool) (msg : MidiMessage)
      (m8 : VirtualM8) :
  reachable m8 -> reachable (snd (fst (process_message verbose msg m8))).
Proof.
  intros Hr.
  destruct (process_message_cases verbose msg m8)
    as (updates & _ & _ & _ & Hcase).
  destruct Hcase as [(note & velocity & _ & _ & _ & ->)
                    | [(note & _ & _ & ->) | (_ & -> & _)]].
  - apply reachable_note_on, Hr.
  - apply reachable_note_off, Hr.
  - exact Hr.
Qed.

Lemma io_for_cons (verbose : bool) (msg : MidiMessage)
      (msgs : list MidiMessage) (m8 : VirtualM8) :
  let first := process_message verbose msg m8 in
  let rest := io_for msgs (process_message verbose) (snd (fst first)) in
  io_for (msg :: msgs) (process_message verbose) m8
  = (fst (fst rest), snd (fst rest), snd first ++ snd rest).
Proof.
  intros first rest. subst first rest. cbn [io_for]. unfold io_bind.
  destruct (process_message_cases verbose msg m8) as (updates & Hok & _).
  destruct (process_message verbose msg m8) as [[r s] out].
  cbn [fst snd] in *. subst r.
  destruct (io_for msgs (process_message verbose) s) as [[r' s'] out'].
  reflexivity.
Qed.

Lemma io_for_process_messages (verbose : bool) (msgs : list MidiMessage)
        (m8 : VirtualM8) :
  reachable m8 ->
  let run := io_for msgs (process_message verbose) m8 in
  fst (fst run) = Returned tt
  /\ reachable (snd (fst run))
  /\ (List.length (sent_frames (snd run)) <= List.length msgs)%nat
  /\ forall frame, In frame (sent_frames (snd run)) ->
       Forall seven_bit (data frame).
Proof.
  revert m8. induction msgs as [|msg msgs IH]; intros m8 Hr run; subst run.
  - repeat split; [exact Hr | cbn; lia | intros frame []].
  - rewrite io_for_cons. cbn [fst snd].
    pose proof (process_message_reachable verbose msg m8 Hr) as Hr1.
    destruct (IH _ Hr1) as (Hok & Hr2 & Hlen & Hfit).
    split; [exact Hok |]. split; [exact Hr2 |].
    rewrite sent_frames_app, length_app.
    assert (Hone : (List.length
                      (sent_frames (snd (process_message verbose msg m8)))
                    <= 1)%nat).
    { destruct (process_message_cases verbose msg m8)
        as (updates & _ & -> & _).
      destruct updates; cbn; lia. }
    split; [cbn [List.length]; lia |].
    intros frame Hin. apply in_app_or in Hin. destruct Hin as [Hin | Hin].
    + apply (process_message_frames_fit verbose msg m8 frame Hin).
    + apply Hfit, Hin.
Qed.

(** X16.  However many messages the loop processes from a reachable state,
    it never raises, the object stays in a reachable state, at most one
    frame goes out per message, and every frame sent fits in seven-bit
    bytes. *)
Theorem loop_keeps_reachable (verbose : bool) (msgs : list MidiMessage)
        (m8 : VirtualM8) :
  reachable m8 ->
  let run := io_for msgs (process_message verbose) m8 in
  fst (fst run) = Returned tt
  /\ reachable (snd (fst run))
  /\ (List.length (sent_frames (snd run)) <= List.length msgs)%nat
  /\ forall frame, In frame (sent_frames (snd run)) ->
       Forall seven_bit (data frame).
Proof. exact (io_for_process_messages verbose msgs m8). Qed.

Lemma loop_keeps_reachable_witness :
  let msgs := [note_on 11 100; control_change 7 1; note_on 11 0] in
  reachable (boot false)
  /\ reachable (snd (fst (io_for msgs (process_message false) (boot false))))
  /\ (List.length
        (sent_frames (snd (io_for msgs (process_message false) (boot false))))
      <= 3)%nat.
Proof.
  intros msgs.
  assert (Hr : reachable (boot false)) by constructor.
  split; [exact Hr |].
  destruct (loop_keeps_reachable false msgs (boot false) Hr)
    as (_ & H1 & H2 & _).
  split; [exact H1 | exact H2].
Defined.

(** ** The initial resync and a whole run *)

Lemma dict_get_In (k : Z) (c : Color) (d : dict) :
  NoDup (dict_keys d) -> In (k, c) d -> dict_get k d = Some c.
Proof.
  induction d as [|[k0 v0] d IH]; cbn [dict_keys map fst dict_get In].
  - intros _ [].
  - intros Hnd [Heq | Hin].
    + injection Heq as -> ->. rewrite Z.eqb_refl. reflexivity.
    + inversion Hnd as [|x l Hnotin Hnd']. subst x l.
      destruct (k0 =? k) eqn:E.
      * apply Z.eqb_eq in E. subst k0. exfalso. apply Hnotin.
        exact (in_map fst _ _ Hin).
      * apply IH; assumption.
Qed.

Lemma reachable_items_fit (self : VirtualM8) :
  reachable self ->
  Forall (fun u => seven_bit (fst u) /\ channels_in_range u)
         (led_state self).
Proof.
  intros Hr. apply Forall_forall. intros [k c] Hin.
  assert (Hnd : NoDup (dict_keys (led_state self))).
  { rewrite (reachable_keys self Hr). apply boot_keys_NoDup. }
  pose proof (dict_get_In k c _ Hnd Hin) as Hget.
  unfold seven_bit, channels_in_range. cbn [fst].
  destruct (reachable_hue_cases self k c Hr Hget)
    as [[Hk Hc] | [[Hk Hc] | [Hk Hc]]];
    try apply grid_cell_bounds in Hk;
    destruct Hc as [-> | ->]; unfold M8_COLORS; lia.
Qed.

Lemma reachable_len (self : VirtualM8) :
  reachable self -> len (led_state self) = 76.
Proof.
  intros Hr. unfold len.
  rewrite <- (length_map fst). fold (dict_keys (led_state self)).
  rewrite (reachable_keys self Hr). vm_compute. reflexivity.
Qed.

Lemma send_initial_leds_run (m8 : VirtualM8) :
  reachable m8 ->
  exists frame,
    send_initial_leds m8
    = (Returned tt, m8, [Sent frame; Logged ("Sent 76 LED updates", "tx")])
    /\ frame_quads frame = led_state m8
    /\ List.length (data frame) = 310%nat
    /\ Forall seven_bit (data frame).
Proof.
  intros Hr.
  pose proof (reachable_len m8 Hr) as Hlen.
  pose proof (in_range_fits_bytes _ (reachable_items_fit m8 Hr)) as Hfit.
  exists (mkMessage "sysex" (frame_bytes (led_state m8))).
  split; [| split; [apply frame_quads_frame_bytes | split]].
  - unfold send_initial_leds, io_bind, call, get_all_leds, io_lift, send,
      io_log.
    destruct (led_state m8) as [|u l] eqn:El; [discriminate Hlen |].
    rewrite (create_led_sysex_fits _ _ Hfit), Hlen. reflexivity.
  - cbn [data]. unfold frame_bytes.
    rewrite !length_app, flat_map_quads_length.
    unfold len in Hlen. unfold LPP_SYSEX_HEADER. cbn [List.length]. lia.
  - cbn [data]. apply frame_bytes_fit, Hfit.
Qed.

(** X17.  In a reachable state the resync does not raise, sends exactly one
    frame and logs one line: the frame carries the 76 items of [led_state]
    in dict order, is 310 bytes long, and fits in seven-bit bytes; the
    object is left as it was. *)
Theorem initial_resync (m8 : VirtualM8) :
  reachable m8 ->
  exists frame,
    send_initial_leds m8
    = (Returned tt, m8, [Sent frame; Logged ("Sent 76 LED updates", "tx")])
    /\ frame_quads frame = led_state m8
    /\ List.length (data frame) = 310%nat
    /\ Forall seven_bit (data frame).
Proof. exact (send_initial_leds_run m8). Qed.

Lemma initial_resync_witness :
  reachable (boot false)
  /\ exists frame,
       send_initial_leds (boot false)
       = (Returned tt, boot false,
          [Sent frame; Logged ("Sent 76 LED updates", "tx")])
       /\ frame_quads frame = led_state (boot false).
Proof.
  assert (Hr : reachable (boot false)) by constructor.
  split; [exact Hr |].
  destruct (initial_resync (boot false) Hr) as (frame & H1 & H2 & _).
  exists frame. split; [exact H1 | exact H2].
Defined.

Lemma run_open_failure (input_port output_port : option string)
      (verbose : bool) (e : string) (pending : list MidiMessage) :
  run_virtual_m8 input_port output_port verbose (Some e) pending
  = (Returned tt, boot verbose,
     [Logged (("Opening input:  " ++ format_port input_port)%string,
              "info");
      Logged (("Opening output: " ++ format_port output_port)%string,
              "info");
      Logged (("Failed to open MIDI ports: " ++ e)%string, "error")]).
Proof. reflexivity. Qed.

(** X18.  A run whose ports fail to open logs three lines and does nothing
    else: no frame is sent and no port is closed.  A run whose ports open
    never raises and its events are, in this order: four log lines, the
    resync frame carrying the boot pattern and its log line, the events of
    the pending messages, the shutdown line, and the closing of the input
    and then of the output port; the object ends in a reachable state. *)
Theorem run_virtual_m8_events (input_port output_port : option string)
        (verbose : bool) (pending : list MidiMessage) :
  (forall e,
     run_virtual_m8 input_port output_port verbose (Some e) pending
     = (Returned tt, boot verbose,
        [Logged (("Opening input:  " ++ format_port input_port)%string,
                 "info");
         Logged (("Opening output: " ++ format_port output_port)%string,
                 "info");
         Logged (("Failed to open MIDI ports: " ++ e)%string, "error")]))
  /\ exists frame m8,
       run_virtual_m8 input_port output_port verbose None pending
       = (Returned tt, m8,
          [Logged (("Opening input:  " ++ format_port input_port)%string,
                 "info");
           Logged (("Opening output: " ++ format_port output_port)%string,
                 "info");
           Logged ("Virtual M8 running! Press Ctrl+C to exit.", "info");
           Logged ("Sending initial LED state...", "info");
           Sent frame;
           Logged ("Sent 76 LED updates", "tx")]
          ++ snd (io_for pending (process_message verbose) (boot verbose))
          ++ [Logged ((newline ++ "Shutting down...")%string, "info");
              ClosedInput; ClosedOutput])
       /\ frame_quads frame = led_state (boot verbose)
       /\ m8 = snd (fst (io_for pending (process_message verbose)
                           (boot verbose)))
       /\ reachable m8.
Proof.
  split; [intros e; apply run_open_failure |].
  assert (Hr : reachable (boot verbose)) by constructor.
  destruct (send_initial_leds_run (boot verbose) Hr)
    as (frame & Hsync & Hq & _).
  destruct (io_for_process_messages verbose pending (boot verbose) Hr)
    as (Hok & Hr' & _).
  exists frame, (snd (fst (io_for pending (process_message verbose)
                             (boot verbose)))).
  split; [| split; [exact Hq | split; [reflexivity | exact Hr']]].
  unfold run_virtual_m8, io_bind, io_log, try_finally, close_ports.
  rewrite Hsync.
  destruct (io_for pending (process_message verbose) (boot verbose))
    as [[r m8] out].
  cbn [fst snd] in Hok |- *. subst r. cbn [app].
  rewrite <- app_assoc. reflexivity.
Qed.

(** * Port detection and [main] *)

Lemma prefix_spec (a b : string) :
  String.prefix a b = true <-> exists post, b = (a ++ post)%string.
Proof.
  revert b. induction a as [|c a IH]; intros b.
  - destruct b;
      (split; [intros _; eexists; reflexivity | intros _; reflexivity]).
  - destruct b as [|c' b]; cbn [String.prefix].
    + split; [discriminate | intros [post H]; discriminate H].
    + destruct (Ascii.ascii_dec c c') as [<- | Hne].
      * rewrite IH. split; intros [post H]; exists post.
        -- cbn. rewrite H. reflexivity.
        -- cbn in H. injection H as H. exact H.
      * split; [discriminate |].
        intros [post H]. cbn in H. injection H as H _. congruence.
Qed.

(** [contains] is the substring test. *)
Lemma contains_spec (needle hay : string) :
  contains needle hay = true <->
  exists pre post, hay = (pre ++ needle ++ post)%string.
Proof.
  induction hay as [|c hay IH]; cbn [contains].
  - rewrite orb_false_r, prefix_spec. split.
    + intros [post H]. exists EmptyString, post. exact H.
    + intros (pre & post & H). destruct pre as [|c pre]; [| discriminate H].
      exists post. exact H.
  - rewrite orb_true_iff, prefix_spec, IH. split.
    + intros [[post H] | (pre & post & H)].
      * exists EmptyString, post. exact H.
      * exists (String c pre), post. cbn. rewrite H. reflexivity.
    + intros (pre & post & H). destruct pre as [|c' pre].
      * left. exists post. exact H.
      * right. cbn in H. injection H as _ H. exists pre, post. exact H.
Qed.

Lemma find_first {A : Type} (f : A -> bool) (l : list A) :
  match find f l with
  | Some x =>
      exists before after,
        l = before ++ x :: after /\ f x = true
        /\ forall y, In y before -> f y = false
  | None => forall y, In y l -> f y = false
  end.
Proof.
  induction l as [|a l IH]; cbn [find].
  - intros y [].
  - destruct (f a) eqn:Ea.
    + exists [], l. repeat split; [exact Ea | intros y []].
    + destruct (find f l) as [x |].
      * destruct IH as (before & after & -> & Hx & Hb).
        exists (a :: before), after. repeat split; [exact Hx |].
        intros y [<- | Hy]; [exact Ea | apply Hb, Hy].
      * intros y [<- | Hy]; [exact Ea | apply IH, Hy].
Qed.

(** X19.  [find_move_ports] searches the two lists independently; on each
    side it returns the first name that has Move or Ableton as a substring,
    and [None] exactly when no name of that list has. *)
Theorem find_move_ports_first (input_names output_names : list string) :
  let wanted := fun name : string =>
    exists pre post,
      name = (pre ++ "Move" ++ post)%string
      \/ name = (pre ++ "Ableton" ++ post)%string in
  let first_of := fun (names : list string) (found : option string) =>
    match found with
    | Some name =>
        exists before after,
          names = before ++ name :: after /\ wanted name
          /\ forall other, In other before -> ~ wanted other
    | None => forall other, In other names -> ~ wanted other
    end in
  first_of input_names (fst (find_move_ports input_names output_names))
  /\ first_of output_names (snd (find_move_ports input_names output_names)).
Proof.
  intros wanted first_of.
  assert (Hw : forall name, is_move_name name = true <-> wanted name).
  { intros name. unfold is_move_name, wanted.
    rewrite orb_true_iff, !contains_spec. split.
    - intros [(pre & post & H) | (pre & post & H)];
        exists pre, post; auto.
    - intros (pre & post & [H | H]); [left | right]; exists pre, post; auto. }
  assert (Hnw : forall name, is_move_name name = false -> ~ wanted name).
  { intros name H Hwanted. apply Hw in Hwanted. congruence. }
  assert (Hfirst : forall names, first_of names (find is_move_name names)).
  { intros names. pose proof (find_first is_move_name names) as H.
    unfold first_of. destruct (find is_move_name names) as [name |].
    - destruct H as (before & after & Hsplit & Hname & Hbefore).
      exists before, after. split; [exact Hsplit |].
      split; [apply Hw, Hname |]. intros other Hin. apply Hnw, Hbefore, Hin.
    - intros other Hin. apply Hnw, H, Hin. }
  split; apply Hfirst.
Qed.

(** ** [main] *)

Lemma main_resolution (args : Args) (input_names output_names : list string)
      (open_error : option string) (pending : list MidiMessage) :
  main args input_names output_names open_error pending =
  if args_list args then (Returned tt, list_ports input_names output_names)
  else
    let input_port :=
      or_else (args_input args) (find is_move_name input_names) in
    let output_port :=
      or_else (args_output args) (find is_move_name output_names) in
    if truthy input_port && truthy output_port then
      (fst (fst (run_virtual_m8 input_port output_port (args_verbose args)
                   open_error pending)),
       snd (run_virtual_m8 input_port output_port (args_verbose args)
              open_error pending))
    else
      (Returned tt,
       [Logged ("Could not find Move MIDI ports. Use --list to see available ports.",
                "error");
        Logged ("Then specify with: --input 'port name' --output 'port name'",
                "error")]
       ++ list_ports input_names output_names).
Proof.
  unfold main, find_move_ports, or_else.
  destruct (args_list args); [reflexivity |].
  destruct (truthy (args_input args)) eqn:Hi;
    destruct (truthy (args_output args)) eqn:Ho;
    cbn [negb orb andb]; rewrite ?Hi, ?Ho; cbn [negb orb andb].
  - destruct (run_virtual_m8 _ _ _ _ _) as [[r m8] out]. reflexivity.
  - destruct (truthy (find is_move_name output_names));
      cbn [negb orb andb]; [| reflexivity].
    destruct (run_virtual_m8 _ _ _ _ _) as [[r m8] out]. reflexivity.
  - destruct (truthy (find is_move_name input_names));
      cbn [negb orb andb]; [| reflexivity].
    destruct (run_virtual_m8 _ _ _ _ _) as [[r m8] out]. reflexivity.
  - destruct (truthy (find is_move_name input_names));
      destruct (truthy (find is_move_name output_names));
      cbn [negb orb andb]; try reflexivity.
    destruct (run_virtual_m8 _ _ _ _ _) as [[r m8] out]. reflexivity.
Qed.


Lemma truthy_spec (port : option string) :
  truthy port = true <-> exists name, port = Some name /\ name <> "".
Proof.
  destruct port as [[|c rest] |]; cbn [truthy]; split;
    try discriminate.
  - intros (name & [= <-] & H). contradiction.
  - intros _. eexists. split; [reflexivity | discriminate].
  - intros _. reflexivity.
  - intros (name & H & _). discriminate H.
Qed.

Lemma list_ports_only_prints (input_names output_names : list string)
      (frame : Message) :
  ~ In (Sent frame) (list_ports input_names output_names).
Proof.
  unfold list_ports. intros Hin.
  repeat (apply in_app_or in Hin; destruct Hin as [Hin | Hin]).
  - destruct Hin as [H | []]. discriminate H.
  - apply in_map_iff in Hin. destruct Hin as ([i name] & H & _).
    discriminate H.
  - destruct Hin as [H | []]. discriminate H.
  - apply in_map_iff in Hin. destruct Hin as ([i name] & H & _).
    discriminate H.
Qed.

(** X20.  Without [--list], when both port arguments are given and
    non-empty, [main] runs the device on exactly those two ports: the names
    mido reports play no part. *)
Theorem explicit_ports_win (args : Args)
        (input_names output_names : list string)
        (open_error : option string) (pending : list MidiMessage)
        (i o : string) :
  args_list args = false ->
  args_input args = Some i -> i <> "" ->
  args_output args = Some o -> o <> "" ->
  main args input_names output_names open_error pending
  = (fst (fst (run_virtual_m8 (Some i) (Some o) (args_verbose args)
                 open_error pending)),
     snd (run_virtual_m8 (Some i) (Some o) (args_verbose args)
            open_error pending)).
Proof.
  intros Hlist Hi Hine Ho Hone.
  rewrite main_resolution, Hlist, Hi, Ho.
  assert (Hti : truthy (Some i) = true)
    by (apply truthy_spec; exists i; auto).
  assert (Hto : truthy (Some o) = true)
    by (apply truthy_spec; exists o; auto).
  unfold or_else. rewrite Hti, Hto. cbv beta iota zeta.
  rewrite Hti, Hto. reflexivity.
Qed.

Lemma explicit_ports_win_witness :
  main (mkArgs false (Some "in") (Some "out") false)
       ["Ableton Move"] ["Ableton Move"] (Some "busy") []
  = (Returned tt,
     [Logged ("Opening input:  in", "info");
      Logged ("Opening output: out", "info");
      Logged ("Failed to open MIDI ports: busy", "error")]).
Proof.
  rewrite (explicit_ports_win (mkArgs false (Some "in") (Some "out") false)
             ["Ableton Move"] ["Ableton Move"] (Some "busy") []
             "in" "out");
    [reflexivity | reflexivity | reflexivity | discriminate
     | reflexivity | discriminate].
Defined.

(** X21.  [main] sends a frame only when [--list] was not given, the ports
    opened, and both port names are non-empty; and each name is then the
    command-line argument if that is non-empty, else the first name mido
    reports with Move or Ableton in it (an empty argument counts as
    missing). *)
Theorem main_sends_only_with_ports (args : Args)
        (input_names output_names : list string)
        (open_error : option string) (pending : list MidiMessage)
        (frame : Message) :
  In (Sent frame)
     (snd (main args input_names output_names open_error pending)) ->
  args_list args = false
  /\ open_error = None
  /\ exists i o,
       i <> "" /\ o <> ""
       /\ (args_input args = Some i
           \/ (truthy (args_input args) = false
               /\ fst (find_move_ports input_names output_names) = Some i))
       /\ (args_output args = Some o
           \/ (truthy (args_output args) = false
               /\ snd (find_move_ports input_names output_names) = Some o)).
Proof.
  rewrite main_resolution. intros Hin.
  destruct (args_list args).
  { exfalso. exact (list_ports_only_prints _ _ _ Hin). }
  split; [reflexivity |]. cbv zeta in Hin.
  destruct (truthy (or_else (args_input args)
                      (find is_move_name input_names))) eqn:Hi;
    [| exfalso].
  2:{ cbn [andb snd] in Hin. apply in_app_or in Hin.
      destruct Hin as [[H | [H | []]] | Hin]; try discriminate H.
      exact (list_ports_only_prints _ _ _ Hin). }
  destruct (truthy (or_else (args_output args)
                      (find is_move_name output_names))) eqn:Ho;
    [| exfalso].
  2:{ cbn [andb snd] in Hin. apply in_app_or in Hin.
      destruct Hin as [[H | [H | []]] | Hin]; try discriminate H.
      exact (list_ports_only_prints _ _ _ Hin). }
  cbn [andb snd] in Hin.
  split.
  { destruct open_error as [e |]; [exfalso | reflexivity].
    rewrite run_open_failure in Hin. cbn [snd] in Hin.
    destruct Hin as [H | [H | [H | []]]]; discriminate H. }
  apply truthy_spec in Hi, Ho.
  destruct Hi as (i & Hi & Hine). destruct Ho as (o & Ho & Hone).
  exists i, o. split; [exact Hine |]. split; [exact Hone |].
  unfold or_else, find_move_ports in *. cbn [fst snd].
  split.
  - destruct (truthy (args_input args)); [left | right; split]; auto.
  - destruct (truthy (args_output args)); [left | right; split]; auto.
Qed.

Lemma main_sends_only_with_ports_witness :
  let args := mkArgs false (Some "") None false in
  let frame :=
    mkMessage "sysex" [0; 32; 41; 2; 16; 11; 11; 63; 63; 63] in
  In (Sent frame)
     (snd (main args ["IAC"; "Ableton Move"] ["Move out"] None
             [note_on 11 100]))
  /\ truthy (args_input args) = false
  /\ fst (find_move_ports ["IAC"; "Ableton Move"] ["Move out"])
     = Some "Ableton Move".
Proof.
  intros args frame.
  assert (H : In (Sent frame)
                (snd (main args ["IAC"; "Ableton Move"] ["Move out"] None
                        [note_on 11 100]))).
  { vm_compute. do 7 right. left. reflexivity. }
  split; [exact H |].
  pose proof (main_sends_only_with_ports _ _ _ _ _ _ H) as _.
  split; reflexivity.
Defined.
